(** * Validated models of qiskit: schema binding, (de)serialization hooks
      and polymorphic field selection

    Shallow embedding of [qiskit/validation/base.py] and
    [qiskit/models/base.py].

    Python dictionaries and instance [__dict__]s are finite maps with string
    keys ([gmap string value]): dictionary equality in Python ignores
    insertion order, and so does equality of [gmap]s.  Exceptions are values
    of the type [exn], and a call that may raise returns a [result].

    Values are the simple types [from_dict] is given, and model instances;
    functions and schema objects as attribute values are outside the model.
    What [getattr] can return beyond them, the class of an object, is kept
    apart in [out_value].  Model classes are direct subclasses of [BaseModel]
    with an empty body, as in [test/python/test_models.py], and are called
    with keyword arguments only, as [make_model] calls them. *)

From stdpp Require Import gmap strings list fin_maps pretty.
From Stdlib Require Import ZArith.

#[local] Set Warnings "-register-all".
#[local] Open Scope string_scope.

(** ** Python values *)

(** A class that can stand in [model_cls]: the default [SimpleNamespace] or a
    user model class, named. *)
Inductive model_ref : Type :=
| SimpleNamespace
| Model (name : string).

#[global] Instance model_ref_eq_dec : EqDecision model_ref.
Proof. solve_decision. Defined.

(** A schema class: the root of the module ([BaseSchema] in
    [validation/base.py], [ModelSchema] in [models/base.py]) or a named
    subclass of a schema class. *)
Inductive schema_cls : Type :=
| Root
| Subclass (name : string) (parent : schema_cls).

#[global] Instance schema_cls_eq_dec : EqDecision schema_cls.
Proof. solve_decision. Defined.

(** Plain data and model instances.  [VObj c d] is an instance of class [c]
    whose [__dict__] is [d]. *)
Inductive value : Type :=
| VNone
| VStr (s : string)
| VInt (z : Z)
| VDict (d : gmap string value)
| VObj (c : model_ref) (d : gmap string value).

Abbreviation dict := (gmap string value).

(** What [getattr] on an object gives: a value, or the class of the object
    for the name [__class__]. *)
Inductive out_value : Type :=
| Plain (v : value)
| ClassObject (c : model_ref).

Abbreviation out_dict := (gmap string out_value).

(** The entries of a dumped dictionary that are values. *)
Definition plain_entries (data : out_dict) : dict :=
  omap (fun o => match o with Plain v => Some v | ClassObject _ => None end) data.

(** marshmallow reports errors as a dictionary from field names to lists of
    messages. *)
Abbreviation errors := (gmap string (list string)).

(** The argument of [ValidationError]: the error dictionary of a schema
    operation, or the message built by the selectors of [OneTypeOf]
    ([data], [hint] and [choices.keys()]). *)
Inductive messages : Type :=
| FieldErrors (errs : errors)
| CannotFindSchema (data : value) (hint : string) (keys : gset string).

Inductive exn : Type :=
| ValidationError (msg : messages)
| ValueError (schema : schema_cls) (bound : model_ref)
| TypeError
| AttributeError.

Inductive result (A : Type) : Type :=
| Ok (a : A)
| Raise (e : exn).
Arguments Ok {A} a.
Arguments Raise {A} e.

Definition bind_result {A B} (r : result A) (k : A -> result B) : result B :=
  match r with
  | Ok a => k a
  | Raise e => Raise e
  end.

Notation "x <- r ;; k" := (bind_result r (fun x => k))
  (at level 100, r at next level, right associativity).

Definition is_validation_error {A} (r : result A) : bool :=
  match r with
  | Raise (ValidationError _) => true
  | _ => false
  end.

(** [a or b] on optional callables: a function object is truthy, [None] is
    falsy. *)
Definition py_or {A} (a b : option A) : option A :=
  match a with
  | Some x => Some x
  | None => b
  end.

(** ** [OneTypeOf]: polymorphic fields *)

Module OneTypeOf.

Section Selectors.
(** The schema instances held in [choices]. *)
Context {S : Type}.

Record t : Type := mk {
  _choices : gmap string S;
  _load_hinter : option (value -> string);
  _dump_hinter : option (value -> string)
}.

(** [OneTypeOf.__init__]; [hinter] and [dump_hinter] default to [None]. *)
Definition init (choices : gmap string S)
    (hinter dump_hinter : option (value -> string)) : t :=
  {| _choices := choices;
     _load_hinter := hinter;
     _dump_hinter := py_or dump_hinter hinter |}.

(** The body shared by the two selectors: call the hinter, index
    [_choices], turn [KeyError] into [ValidationError].  Calling [None]
    raises [TypeError]. *)
Definition select (hinter : option (value -> string))
    (choices : gmap string S) (data : value) : result S :=
  match hinter with
  | None => Raise TypeError
  | Some h =>
      let hint := h data in
      match choices !! hint with
      | Some schema => Ok schema
      | None => Raise (ValidationError (CannotFindSchema data hint (dom choices)))
      end
  end.

Definition _serialization_selector (self : t) (data : value) : result S :=
  select (_dump_hinter self) (_choices self) data.

Definition _deserialization_selector (self : t) (data : value) : result S :=
  select (_load_hinter self) (_choices self) data.
End Selectors.

Arguments t S : clear implicits.

End OneTypeOf.

(** ** marshmallow's field loop *)

Module Marshmallow.

Inductive field_result : Type :=
| Valid (v : value)
| Invalid (msgs : list string).

(** Modelled from the spec: a field descriptor of marshmallow, its
    [required] flag, its [default], a value and not a function, and what
    its kind does to a value in each direction.  The other options of
    marshmallow's fields are left as they are when not given.  The kinds
    covered are those whose two directions are functions of the value
    alone; a nested schema, whose load goes through the [make_model] of
    another schema class, is not among them. *)
Record field : Type := Field {
  required : bool;
  default : option value;
  _serialize : value -> field_result;
  _deserialize : value -> field_result
}.

Definition missing_required : list string :=
  ["Missing data for required field."].

(** Modelled from the spec: what marshmallow's load does for one declared
    field; nothing when an optional field is absent, an error when a
    required one is. *)
Definition load_field (raw : dict) (name : string) (f : field)
    : option field_result :=
  match raw !! name with
  | Some w => Some (_deserialize f w)
  | None => if required f then Some (Invalid missing_required) else None
  end.

(** Modelled from the spec: what marshmallow's dump does for one declared
    field; only fields present on the object are serialized, and for an
    absent one the [default], if there is one, is dumped as it is.  The
    value of a field is the entry of the instance dictionary: declared
    fields are taken not to bear a name the class itself defines
    ([__class__], [to_dict], ...), under which marshmallow's attribute
    access finds the class attribute. *)
Definition dump_field (attrs : dict) (name : string) (f : field)
    : option field_result :=
  match attrs !! name with
  | Some v => Some (_serialize f v)
  | None => Valid <$> default f
  end.

Definition valid_part (r : option field_result) : option value :=
  match r with
  | Some (Valid v) => Some v
  | _ => None
  end.

Definition invalid_part (r : option field_result) : option (list string) :=
  match r with
  | Some (Invalid msgs) => Some msgs
  | _ => None
  end.

(** Modelled from the spec: the library call [Schema.load] before its
    [post_load] hooks.  Every declared field is processed on its own and the
    errors of all of them are collected. *)
Definition fields_load (fs : gmap string field) (raw : dict) : dict * errors :=
  (map_imap (fun name f => valid_part (load_field raw name f)) fs,
   map_imap (fun name f => invalid_part (load_field raw name f)) fs).

(** Modelled from the spec: the library call [Schema.dump] before its
    [post_dump] hooks. *)
Definition fields_dump (fs : gmap string field) (attrs : dict) : dict * errors :=
  (map_imap (fun name f => valid_part (dump_field attrs name f)) fs,
   map_imap (fun name f => invalid_part (dump_field attrs name f)) fs).

(** Modelled from the spec: the library call [Schema.validate], a load that
    runs no hook and returns the errors only. *)
Definition validate (fs : gmap string field) (raw : dict) : errors :=
  (fields_load fs raw).2.

End Marshmallow.

(** ** Schema classes, model classes and their class attributes *)

(** The class attributes the binders read and write.
    - [declared_fields]: the fields marshmallow resolved for a schema class,
      its own and the inherited ones;
    - [dict_model_cls]: the entry [model_cls] of the schema class's own
      [__dict__];
    - [cls_schema]: the attribute [schema] of a model class, an instance of
      the schema class given;
    - [validating_inits]: how many times [__init__] of a model class has been
      wrapped by [_validate_after_init]. *)
Record store : Type := Store {
  declared_fields : schema_cls -> gmap string Marshmallow.field;
  dict_model_cls : schema_cls -> option model_ref;
  cls_schema : string -> option schema_cls;
  validating_inits : string -> nat
}.

Definition upd {K V} `{EqDecision K} (f : K -> V) (k : K) (v : V) : K -> V :=
  fun k' => if decide (k' = k) then v else f k'.

(** [schema_cls.model_cls]: attribute lookup along the base classes.  The
    root declares [model_cls = SimpleNamespace] in its body, so the lookup
    ends there at the latest; marshmallow's [Schema] has no such attribute. *)
Fixpoint model_cls (st : store) (s : schema_cls) : option model_ref :=
  match dict_model_cls st s with
  | Some c => Some c
  | None =>
      match s with
      | Root => None
      | Subclass _ parent => model_cls st parent
      end
  end.

(** The classes as the modules define them, before any binding. *)
Definition initial (fields : schema_cls -> gmap string Marshmallow.field) : store :=
  {| declared_fields := fields;
     dict_model_cls := fun s => match s with Root => Some SimpleNamespace | _ => None end;
     cls_schema := fun _ => None;
     validating_inits := fun _ => 0 |}.

(** ** The hooks of [BaseSchema] (the same text in [ModelSchema]) *)

(** [getattr(obj, key)] for a key of [obj.__dict__], [obj] an instance of
    class [c] with [__dict__] [attrs].  The data descriptors of the type come
    before the instance [__dict__]: [__class__] and [__dict__] on every
    object, [__weakref__] on instances of the model classes, which are
    defined in Python. *)
Definition getattr (c : model_ref) (attrs : dict) (key : string) : option out_value :=
  if decide (key = "__class__") then Some (ClassObject c)
  else if decide (key = "__dict__") then Some (Plain (VDict attrs))
  else if decide (key = "__weakref__") then
    match c with
    | Model _ => Some (Plain VNone)
    | SimpleNamespace => Plain <$> attrs !! key
    end
  else Plain <$> attrs !! key.

(** [dump_additional_data]: for every key of the [__dict__] of the object
    that [dump] did not produce, what [getattr] gives is added.  The object
    is given by its class and its [__dict__]. *)
Definition dump_additional_data (valid_data : dict) (c : model_ref) (attrs : dict)
    : out_dict :=
  let additional_keys := dom attrs ∖ dom valid_data in
  (Plain <$> valid_data)
  ∪ map_imap (fun key _ => getattr c attrs key)
      (filter (fun kv => kv.1 ∈ additional_keys) attrs).

(** [load_additional_data]: the keys of the input that [load] did not
    produce are added as they are. *)
Definition load_additional_data (valid_data : dict) (original_data : dict) : dict :=
  let additional_keys := dom original_data ∖ dom valid_data in
  valid_data ∪ filter (fun kv => kv.1 ∈ additional_keys) original_data.

(** ** Text common to the two binders *)

(** The attribute [schema] of the class of an instance. *)
Definition class_schema (st : store) (c : model_ref) : option schema_cls :=
  match c with
  | SimpleNamespace => None
  | Model name => cls_schema st name
  end.

(** [v.meth(args)] for data [v] found in an instance [__dict__] and a method
    name no class here defines ([dump], [validate]): only the [__dict__] of
    an object can supply the attribute, and what it supplies is data, which
    cannot be called.  The arguments are evaluated before the call. *)
Definition call_on_data {A B} (v : value) (meth : string) (args : result A)
    : result B :=
  match v with
  | VObj _ d =>
      match d !! meth with
      | Some _ => _ <- args ;; Raise TypeError
      | None => Raise AttributeError
      end
  | _ => Raise AttributeError
  end.

(** [schema.dump(obj)]: marshmallow's dump, then, when it reported no
    error, the [post_dump] hook. *)
Definition schema_dump (st : store) (s : schema_cls) (c : model_ref) (attrs : dict)
    : out_dict * errors :=
  let '(valid_data, errs) := Marshmallow.fields_dump (declared_fields st s) attrs in
  if decide (errs = ∅) then (dump_additional_data valid_data c attrs, ∅)
  else (Plain <$> valid_data, errs).

(** [_to_dict(instance)]: [instance.schema] is looked up on the instance
    first, then on its class. *)
Definition _to_dict (st : store) (instance : value) : result out_dict :=
  match instance with
  | VObj c attrs =>
      match attrs !! "schema" with
      | Some v => call_on_data v "dump" (Ok tt)
      | None =>
          match class_schema st c with
          | None => Raise AttributeError
          | Some s =>
              let '(data, errs) := schema_dump st s c attrs in
              if decide (errs = ∅) then Ok data
              else Raise (ValidationError (FieldErrors errs))
          end
      end
  | _ => Raise AttributeError
  end.

(** The call [instance.to_dict()]. *)
Definition call_to_dict (st : store) (instance : value) : result out_dict :=
  match instance with
  | VObj c attrs =>
      match attrs !! "to_dict" with
      | Some _ => Raise TypeError
      | None =>
          match class_schema st c with
          | None => Raise AttributeError
          | Some _ => _to_dict st instance
          end
      end
  | _ => Raise AttributeError
  end.

(** [errors = instance.schema.validate(instance.to_dict())] followed by
    [if errors: raise ValidationError(errors)].  The validation reads the
    declared keys of the dictionary; the class of the object, which only
    [getattr] on an additional key [__class__] puts there, is not a value it
    can be given for one of them, so the entries that are values are what it
    sees. *)
Definition validate_instance (st : store) (instance : value) : result unit :=
  match instance with
  | VObj c attrs =>
      match attrs !! "schema" with
      | Some v => call_on_data v "validate" (call_to_dict st instance)
      | None =>
          match class_schema st c with
          | None => Raise AttributeError
          | Some s =>
              data <- call_to_dict st instance ;;
              let errs := Marshmallow.validate (declared_fields st s)
                            (plain_entries data) in
              if decide (errs = ∅) then Ok tt
              else Raise (ValidationError (FieldErrors errs))
          end
      end
  | _ => Raise AttributeError
  end.

Section Construction.
(** What the wrapper installed by [_validate_after_init] runs after the
    wrapped [init_method]. *)
Variable after_init : store -> value -> result unit.

(** [_validate_after_init(init_method)]: the wrapper [_decorated(self,
    *args, **kwargs)].  A keyword argument [self] collides with its first
    parameter and the call raises [TypeError] before the body runs;
    otherwise [init_method] works on the instance, and then the validation
    on what it left. *)
Definition _validate_after_init (st : store)
    (init_method : value -> dict -> result value) : value -> dict -> result value :=
  fun self kwargs =>
    match kwargs !! "self" with
    | Some _ => Raise TypeError
    | None =>
        self' <- init_method self kwargs ;;
        _ <- after_init st self' ;;
        Ok self'
    end.

(** The constructor body of a model class, [SimpleNamespace.__init__(self,
    **kwargs)]: [self.__dict__.update(kwargs)]. *)
Definition original_init (self : value) (kwargs : dict) : result value :=
  match self with
  | VObj c attrs => Ok (VObj c (kwargs ∪ attrs))
  | _ => Raise TypeError
  end.

(** Calling a model class with keyword arguments [kwargs]: a new instance
    with an empty [__dict__] is given to [__init__], wrapped as many times
    as the class was bound. *)
Definition construct (st : store) (c : model_ref) (kwargs : dict) : result value :=
  let self := VObj c ∅ in
  match c with
  | SimpleNamespace => original_init self kwargs
  | Model name =>
      Nat.iter (validating_inits st name) (_validate_after_init st) original_init
        self kwargs
  end.

(** [make_model]: [self.model_cls] is resolved when the hook runs. *)
Definition make_model (st : store) (s : schema_cls) (data : dict) : result value :=
  match model_cls st s with
  | None => Raise AttributeError
  | Some c => construct st c data
  end.

(** [schema.load(dct)] with its [post_load] hooks, which marshmallow runs in
    the order of their names and only when no field failed:
    [load_additional_data], then [make_model].  (A [ValidationError] raised
    by a hook would come back in [errors]; [_from_dict] raises it again with
    the same messages, so it is let through here.) *)
Definition schema_load (st : store) (s : schema_cls) (dct : dict)
    : result (value * errors) :=
  let '(valid_data, errs) := Marshmallow.fields_load (declared_fields st s) dct in
  if decide (errs = ∅) then
    obj <- make_model st s (load_additional_data valid_data dct) ;;
    Ok (obj, ∅)
  else Ok (VDict valid_data, errs).

(** [_from_dict(decorated_cls, dct)]. *)
Definition _from_dict (st : store) (decorated_cls : string) (dct : dict)
    : result value :=
  match cls_schema st decorated_cls with
  | None => Raise AttributeError
  | Some s =>
      loaded <- schema_load st s dct ;;
      if decide (loaded.2 = ∅) then Ok loaded.1
      else Raise (ValidationError (FieldErrors loaded.2))
  end.
End Construction.

(** ** [qiskit/validation/base.py]: [_BindSchema] *)

Module Validation.

Abbreviation BaseSchema := Root.

(** [_BindSchema._validate]. *)
Definition _validate (st : store) (instance : value) : result unit :=
  validate_instance st instance.

(** The call [self._validate()] of the wrapper. *)
Definition call__validate (st : store) (self : value) : result unit :=
  match self with
  | VObj c attrs =>
      match attrs !! "_validate" with
      | Some _ => Raise TypeError
      | None =>
          match class_schema st c with
          | None => Raise AttributeError
          | Some _ => _validate st self
          end
      end
  | _ => Raise AttributeError
  end.

Definition new (st : store) (c : model_ref) (kwargs : dict) : result value :=
  construct call__validate st c kwargs.

Definition from_dict (st : store) (decorated_cls : string) (dct : dict)
    : result value :=
  _from_dict call__validate st decorated_cls dct.

Definition to_dict (st : store) (instance : value) : result out_dict :=
  call_to_dict st instance.

(** [_BindSchema(schema_cls).__call__(model_cls)]: the check reads the
    schema class's own [__dict__]. *)
Definition bind_schema (st : store) (s : schema_cls) (c : string) : result store :=
  match dict_model_cls st s with
  | Some bound => Raise (ValueError s bound)
  | None =>
      Ok {| declared_fields := declared_fields st;
            dict_model_cls := upd (dict_model_cls st) s (Some (Model c));
            cls_schema := upd (cls_schema st) c (Some s);
            validating_inits := upd (validating_inits st) c (S (validating_inits st c)) |}
  end.

End Validation.

(** ** [qiskit/models/base.py]: [BindSchema] *)

Module Models.

Abbreviation ModelSchema := Root.

(** The wrapper of this module validates in line. *)
Definition new (st : store) (c : model_ref) (kwargs : dict) : result value :=
  construct validate_instance st c kwargs.

Definition from_dict (st : store) (cls : string) (dct : dict) : result value :=
  _from_dict validate_instance st cls dct.

(** [BindSchema(schema).__call__(cls)]: no check. *)
Definition bind_schema (st : store) (s : schema_cls) (c : string) : store :=
  {| declared_fields := declared_fields st;
     dict_model_cls := upd (dict_model_cls st) s (Some (Model c));
     cls_schema := upd (cls_schema st) c (Some s);
     validating_inits := upd (validating_inits st) c (S (validating_inits st c)) |}.

End Models.

(** ** Properties of stores and of field sets *)

(** The stores the program can be in: the classes as defined, then any
    number of successful [bind_schema] calls of [validation/base.py]. *)
Inductive reachable (fields : schema_cls -> gmap string Marshmallow.field)
    : store -> Prop :=
| reachable_initial : reachable fields (initial fields)
| reachable_bind st s c st' :
    reachable fields st ->
    Validation.bind_schema st s c = Ok st' ->
    reachable fields st'.

(** Model class [c] is bound to schema class [s], and [s] builds instances
    of [c]. *)
Definition bound_to (st : store) (c : string) (s : schema_cls) : Prop :=
  cls_schema st c = Some s /\
  model_cls st s = Some (Model c) /\
  0 < validating_inits st c.

(** Loading gives back every attribute of [attrs] that a declared field
    dumps, and no default is dumped for an attribute [attrs] lacks. *)
Definition load_undoes_dump (fs : gmap string Marshmallow.field) (attrs : dict) : Prop :=
  forall name f, fs !! name = Some f ->
    match attrs !! name with
    | Some v => forall w, Marshmallow._serialize f v = Marshmallow.Valid w ->
                          Marshmallow._deserialize f w = Marshmallow.Valid v
    | None => Marshmallow.default f = None
    end.

(** Dumping gives back every entry of [raw] that a declared field loads,
    and no default is dumped for an entry [raw] lacks. *)
Definition dump_undoes_load (fs : gmap string Marshmallow.field) (raw : dict) : Prop :=
  forall name f, fs !! name = Some f ->
    match raw !! name with
    | Some w => forall v, Marshmallow._deserialize f w = Marshmallow.Valid v ->
                          Marshmallow._serialize f v = Marshmallow.Valid w
    | None => Marshmallow.default f = None
    end.

(** The names [bind_schema] installs on a model class and the wrapper and
    [_validate] look up on the instance. *)
Definition installed : list string := ["schema"; "to_dict"; "_validate"].

(** No entry of the [__dict__] hides an installed name. *)
Definition plain (attrs : dict) : bool :=
  forallb (fun name => match attrs !! name with None => true | Some _ => false end)
          installed.

(** A keyword argument [self] cannot be given to a wrapped constructor. *)
Definition no_self (kwargs : dict) : bool :=
  match kwargs !! "self" with None => true | Some _ => false end.

(** The names [getattr] resolves on the type of an instance and not in its
    [__dict__]. *)
Definition descriptor_names : list string := ["__class__"; "__dict__"; "__weakref__"].

(** No entry of the [__dict__] has such a name. *)
Definition ordinary (attrs : dict) : bool :=
  forallb (fun name => match attrs !! name with None => true | Some _ => false end)
          descriptor_names.

(** Declared field [name] is missing though required, or its value in
    [raw] is rejected. *)
Definition field_fails (fs : gmap string Marshmallow.field) (raw : dict)
    (name : string) : Prop :=
  exists f, fs !! name = Some f /\
    ((raw !! name = None /\ Marshmallow.required f = true)
     \/ exists w msgs, raw !! name = Some w
                       /\ Marshmallow._deserialize f w = Marshmallow.Invalid msgs).

(** What a constructor may receive for field [f]: a value that [f]
    serializes to something it loads, or nothing when [f] has a default
    that it loads, or has none and is optional. *)
Definition accepted (f : Marshmallow.field) (arg : option value) : Prop :=
  match arg with
  | Some v => exists w u, Marshmallow._serialize f v = Marshmallow.Valid w
                          /\ Marshmallow._deserialize f w = Marshmallow.Valid u
  | None =>
      match Marshmallow.default f with
      | Some w => exists u, Marshmallow._deserialize f w = Marshmallow.Valid u
      | None => Marshmallow.required f = false
      end
  end.

(** ** The classes of [test/python/test_models.py] *)

Module TestModels.

(** Python's [str] on the values marshmallow's [String] is given here:
    [None], strings and integers.  For a dictionary or an instance [str] is
    the [repr], which follows the order of insertion and the module names;
    it is not modelled and a fixed text stands for it. *)
Definition py_str (v : value) : string :=
  match v with
  | VNone => "None"
  | VStr s => s
  | VInt z => pretty z
  | VDict _ => "{...}"
  | VObj _ _ => "namespace(...)"
  end.

(** marshmallow's [fields.String]: dumping gives [None] for [None] and
    [str(value)] otherwise; loading rejects [None] and everything that is
    not a string. *)
Definition String (required : bool) : Marshmallow.field :=
  {| Marshmallow.required := required;
     Marshmallow.default := None;
     Marshmallow._serialize := fun v =>
       match v with
       | VNone => Marshmallow.Valid VNone
       | _ => Marshmallow.Valid (VStr (py_str v))
       end;
     Marshmallow._deserialize := fun v =>
       match v with
       | VStr _ => Marshmallow.Valid v
       | VNone => Marshmallow.Invalid ["Field may not be null."]
       | _ => Marshmallow.Invalid ["Not a valid string."]
       end |}.

Definition PersonSchema : schema_cls := Subclass "PersonSchema" Root.

(** The fields a class body declares: [name = fields.String(required=True)]
    in [PersonSchema]; the other classes have the body [pass]. *)
Definition own_fields (s : schema_cls) : gmap string Marshmallow.field :=
  if decide (s = PersonSchema) then {[ "name" := String true ]} else ∅.

(** The fields of a class: its own, then the inherited ones. *)
Fixpoint fields (s : schema_cls) : gmap string Marshmallow.field :=
  own_fields s ∪
  match s with
  | Root => ∅
  | Subclass _ parent => fields parent
  end.

(** The store after [@bind_schema(PersonSchema) class Person(BaseModel)]. *)
Definition st_person : store :=
  match Validation.bind_schema (initial fields) PersonSchema "Person" with
  | Ok st => st
  | Raise _ => initial fields
  end.

Definition foo : dict := {[ "name" := VStr "Foo" ]}.

Definition foo_bar : dict := {[ "name" := VStr "Foo"; "other" := VStr "bar" ]}.

Definition foo_validate : dict := {[ "name" := VStr "Foo"; "_validate" := VInt 1 ]}.

Definition foo_schema : dict := {[ "name" := VStr "Foo"; "schema" := VInt 1 ]}.

Definition foo_to_dict : dict := {[ "name" := VStr "Foo"; "to_dict" := VInt 1 ]}.

Definition foo_self : dict := {[ "name" := VStr "Foo"; "self" := VInt 1 ]}.

Definition foo_class : dict := {[ "name" := VStr "Foo"; "__class__" := VInt 1 ]}.

Definition five : dict := {[ "name" := VInt 5 ]}.

Definition five_dumped : dict := {[ "name" := VStr "5" ]}.

Definition only_to_dict : dict := {[ "to_dict" := VInt 1 ]}.

End TestModels.

(** Two hinters defined on every value: the dump hinter of the class
    docstring, [data.__class__.__name__], and a load hinter that takes every
    dictionary for a book, ['Book' if isinstance(data, dict) else 'Album'].
    (The load hinter of the docstring, ['author' in data], raises on values
    that are not containers.) *)
Definition dump_book_or_album (data : value) : string :=
  match data with
  | VNone => "NoneType"
  | VStr _ => "str"
  | VInt _ => "int"
  | VDict _ => "dict"
  | VObj SimpleNamespace _ => "SimpleNamespace"
  | VObj (Model name) _ => name
  end.

Definition book_if_dict (data : value) : string :=
  match data with
  | VDict _ => "Book"
  | _ => "Album"
  end.

Definition BookSchema : schema_cls := Subclass "BookSchema" Root.
Definition AlbumSchema : schema_cls := Subclass "AlbumSchema" Root.

(** The choices of the docstring with these hinters, and with the class
    name as the only hinter. *)
Definition library : OneTypeOf.t schema_cls :=
  OneTypeOf.init {[ "Book" := BookSchema; "Album" := AlbumSchema ]}
                 (Some book_if_dict) (Some dump_book_or_album).

Definition by_class_name : OneTypeOf.t schema_cls :=
  OneTypeOf.init {[ "Book" := BookSchema; "Album" := AlbumSchema ]}
                 (Some dump_book_or_album) None.

Definition an_album : value := VDict {[ "title" := VStr "T" ]}.

(** * Properties *)

Example test_instantiate_additional :
  Validation.new TestModels.st_person (Model "Person") TestModels.foo_bar
  = Ok (VObj (Model "Person") TestModels.foo_bar).
Proof. vm_compute. reflexivity. Qed.

Example test_instantiate_required :
  Validation.new TestModels.st_person (Model "Person") ∅
  = Raise (ValidationError (FieldErrors {[ "name" := Marshmallow.missing_required ]})).
Proof. vm_compute. reflexivity. Qed.

Example test_serialize :
  Validation.to_dict TestModels.st_person (VObj (Model "Person") TestModels.foo_bar)
  = Ok (Plain <$> TestModels.foo_bar).
Proof. vm_compute. reflexivity. Qed.

Example test_instantiate_from_dict :
  Validation.from_dict TestModels.st_person "Person" TestModels.foo_bar
  = Ok (VObj (Model "Person") TestModels.foo_bar).
Proof. vm_compute. reflexivity. Qed.

Example test_instance_attribute_hides_to_dict :
  Validation.from_dict TestModels.st_person "Person" TestModels.foo_to_dict
  = Raise TypeError.
Proof. vm_compute. reflexivity. Qed.

Example test_keyword_self :
  Validation.new TestModels.st_person (Model "Person") TestModels.foo_self
  = Raise TypeError
  /\ construct Validation.call__validate TestModels.st_person SimpleNamespace
       TestModels.foo_self
     = Ok (VObj SimpleNamespace TestModels.foo_self).
Proof. vm_compute. by split. Qed.

Example test_coercion :
  Validation.new TestModels.st_person (Model "Person") TestModels.five
  = Ok (VObj (Model "Person") TestModels.five)
  /\ Validation.to_dict TestModels.st_person (VObj (Model "Person") TestModels.five)
     = Ok (Plain <$> TestModels.five_dumped).
Proof. vm_compute. by split. Qed.

Example test_inherited_field :
  TestModels.fields (Subclass "Copy" TestModels.PersonSchema) !! "name"
  = Some (TestModels.String true).
Proof. reflexivity. Qed.

(** ** Polymorphic selection *)

Section SelectorFacts.
Context {S : Type}.
Implicit Types (choices : gmap string S) (data : value).

Lemma select_found choices h data schema :
  choices !! h data = Some schema ->
  OneTypeOf.select (Some h) choices data = Ok schema.
Proof. intros Hin. unfold OneTypeOf.select. by rewrite Hin. Qed.

Lemma select_absent choices h data :
  choices !! h data = None ->
  OneTypeOf.select (Some h) choices data
  = Raise (ValidationError (CannotFindSchema data (h data) (dom choices))).
Proof. intros Hout. unfold OneTypeOf.select. by rewrite Hout. Qed.

(** C6, as the code has it: whenever the load hinter returns a hint absent
    from [choices], the deserialization selector raises [ValidationError]
    itself, with a message naming the data, the hint and the keys of
    [choices], whatever the dump hinter is; and whenever the hinter used for
    dumping, the [dump_hinter] given or else the load hinter, returns a hint
    absent from [choices], the serialization selector does the same,
    whatever the load hinter is. *)
Theorem selectors_raise_validation_error choices data :
  (forall hinter dump_hinter,
     choices !! hinter data = None ->
     OneTypeOf._deserialization_selector
       (OneTypeOf.init choices (Some hinter) dump_hinter) data
     = Raise (ValidationError (CannotFindSchema data (hinter data) (dom choices))))
  /\ (forall hinter dump_hinter,
        choices !! dump_hinter data = None ->
        OneTypeOf._serialization_selector
          (OneTypeOf.init choices hinter (Some dump_hinter)) data
        = Raise (ValidationError
                   (CannotFindSchema data (dump_hinter data) (dom choices))))
  /\ (forall hinter,
        choices !! hinter data = None ->
        OneTypeOf._serialization_selector
          (OneTypeOf.init choices (Some hinter) None) data
        = Raise (ValidationError (CannotFindSchema data (hinter data) (dom choices)))).
Proof.
  split; [|split].
  - intros hinter dump_hinter Hout. by apply select_absent.
  - intros hinter dump_hinter Hout. by apply select_absent.
  - intros hinter Hout. by apply select_absent.
Qed.

(** C10: a field built with a hinter and no [dump_hinter] keeps the hinter
    for dumping: its serialization selector returns the schema [choices]
    registers for the hint of the load hinter, raises as the deserialization
    selector does when the hint is not registered, and so agrees with it on
    every value. *)
Theorem dump_hinter_defaults_to_hinter choices (hinter : value -> string) data :
  let poly := OneTypeOf.init choices (Some hinter) None in
  OneTypeOf._dump_hinter poly = Some hinter
  /\ OneTypeOf._serialization_selector poly data
     = OneTypeOf._deserialization_selector poly data
  /\ (forall schema,
        choices !! hinter data = Some schema ->
        OneTypeOf._serialization_selector poly data = Ok schema)
  /\ (choices !! hinter data = None ->
      OneTypeOf._serialization_selector poly data
      = Raise (ValidationError (CannotFindSchema data (hinter data) (dom choices)))).
Proof.
  intros poly. split; [done|]. split; [done|]. split.
  - intros schema Hin. by apply select_found.
  - intros Hout. by apply select_absent.
Qed.
End SelectorFacts.

Lemma selectors_raise_validation_error_witness :
  OneTypeOf._deserialization_selector
    (OneTypeOf.init (OneTypeOf._choices library) (Some dump_book_or_album)
       (Some book_if_dict)) an_album
  = Raise (ValidationError (CannotFindSchema an_album (dump_book_or_album an_album)
                              (dom (OneTypeOf._choices library)))).
Proof.
  exact (proj1 (selectors_raise_validation_error (OneTypeOf._choices library) an_album)
           dump_book_or_album (Some book_if_dict) eq_refl).
Defined.

Lemma dump_hinter_defaults_to_hinter_witness :
  OneTypeOf._serialization_selector by_class_name (VObj (Model "Album") ∅)
  = Ok AlbumSchema.
Proof.
  exact (proj1 (proj2 (proj2
           (dump_hinter_defaults_to_hinter (OneTypeOf._choices library)
              dump_book_or_album (VObj (Model "Album") ∅))))
           AlbumSchema eq_refl).
Defined.

(** C6 as stated fails: the hinter of [by_class_name] answers ["dict"] for
    a dictionary, a tag the field does not register, and the error raised
    is a [ValidationError], not an error of another type. *)
Lemma selection_error_is_a_validation_error :
  OneTypeOf._choices by_class_name !! dump_book_or_album an_album = None
  /\ ~ (exists e, OneTypeOf._deserialization_selector by_class_name an_album = Raise e
                  /\ forall msg, e <> ValidationError msg).
Proof.
  split; [reflexivity|].
  intros (e & Hraise & Hother).
  vm_compute in Hraise. injection Hraise as <-.
  by eapply Hother.
Qed.

Example polymorphic_selection_book :
  OneTypeOf._deserialization_selector library
    (VDict {[ "author" := VStr "A"; "title" := VStr "T" ]})
  = Ok BookSchema.
Proof. reflexivity. Qed.

Example polymorphic_selection_dump_unregistered :
  OneTypeOf._serialization_selector library (VObj (Model "Person") TestModels.foo)
  = Raise (ValidationError
             (CannotFindSchema (VObj (Model "Person") TestModels.foo) "Person"
                (dom (OneTypeOf._choices library)))).
Proof. reflexivity. Qed.

(** ** Binding *)

Lemma subclass_neq name s : Subclass name s <> s.
Proof.
  revert name. induction s as [|n p IH]; intros name; [done|].
  intros [= _ Hp]. by apply (IH n).
Qed.

Lemma upd_eq {K V} `{EqDecision K} (f : K -> V) k v : upd f k v k = v.
Proof. unfold upd. by rewrite decide_True. Qed.

Lemma upd_ne {K V} `{EqDecision K} (f : K -> V) k k' v :
  k' <> k -> upd f k v k' = f k'.
Proof. intros Hne. unfold upd. by rewrite decide_False. Qed.

(** A class whose own [__dict__] holds [model_cls] resolves to it. *)
Lemma model_cls_own st s c : dict_model_cls st s = Some c -> model_cls st s = Some c.
Proof. intros Hown. destruct s; simpl; by rewrite Hown. Qed.

Lemma model_cls_inherited st name s :
  dict_model_cls st (Subclass name s) = None ->
  model_cls st (Subclass name s) = model_cls st s.
Proof. intros Hown. simpl. by rewrite Hown. Qed.

Lemma bind_schema_inv st s c st' :
  Validation.bind_schema st s c = Ok st' ->
  dict_model_cls st s = None
  /\ dict_model_cls st' = upd (dict_model_cls st) s (Some (Model c))
  /\ cls_schema st' = upd (cls_schema st) c (Some s)
  /\ validating_inits st' = upd (validating_inits st) c (S (validating_inits st c))
  /\ declared_fields st' = declared_fields st.
Proof.
  unfold Validation.bind_schema. destruct (dict_model_cls st s) eqn:Hown; [done|].
  intros [= <-]. simpl. by repeat split.
Qed.

(** C2: once [s] is bound to [a], binding [s] to [b] raises the
    already-bound error (a [ValueError] in the code).  A subclass of [s]
    that was never bound inherits [model_cls] from [s], yet binding it
    succeeds, because the check reads the subclass's own [__dict__];
    afterwards each of the two schema classes builds its own model. *)
Theorem single_binding st s a b st1 :
  Validation.bind_schema st s a = Ok st1 ->
  Validation.bind_schema st1 s b = Raise (ValueError s (Model a))
  /\ forall name, dict_model_cls st1 (Subclass name s) = None ->
       model_cls st1 (Subclass name s) = Some (Model a)
       /\ exists st2,
            Validation.bind_schema st1 (Subclass name s) b = Ok st2
            /\ model_cls st2 (Subclass name s) = Some (Model b)
            /\ model_cls st2 s = Some (Model a).
Proof.
  intros Hbind. destruct (bind_schema_inv _ _ _ _ Hbind) as (_ & Hd & _).
  assert (Hown : dict_model_cls st1 s = Some (Model a)) by (by rewrite Hd, upd_eq).
  split.
  - unfold Validation.bind_schema. by rewrite Hown.
  - intros name Hfresh. split.
    + rewrite (model_cls_inherited _ _ _ Hfresh). by apply model_cls_own.
    + unfold Validation.bind_schema. rewrite Hfresh. eexists. split; [done|]. split.
      * apply model_cls_own. simpl. by rewrite upd_eq.
      * apply model_cls_own. simpl. rewrite upd_ne; [done|].
        intros Heq. by apply (subclass_neq name s).
Qed.

Lemma reachable_root fields st :
  reachable fields st -> dict_model_cls st Root = Some SimpleNamespace.
Proof.
  induction 1 as [|st s c st' _ IH Hbind]; [done|].
  destruct (bind_schema_inv _ _ _ _ Hbind) as (Hnone & Hd & _).
  rewrite Hd, upd_ne; [done|]. intros <-. congruence.
Qed.

(** C9: in every store the program can reach, [bind_schema(BaseSchema)]
    raises the already-bound error for any model class and names
    [SimpleNamespace], the default [BaseSchema] declares in its body, as the
    class it is bound to. *)
Theorem base_schema_cannot_be_bound fields st c :
  reachable fields st ->
  Validation.bind_schema st Validation.BaseSchema c
  = Raise (ValueError Validation.BaseSchema SimpleNamespace).
Proof.
  intros Hreach. unfold Validation.bind_schema.
  by rewrite (reachable_root _ _ Hreach).
Qed.

Lemma right_id_dict (kwargs : dict) : kwargs ∪ ∅ = kwargs.
Proof. apply (right_id_L ∅ (∪)). Qed.

(** The wrappers around the constructor body, on a new instance: without a
    keyword [self], the body stores the keyword arguments and, if there is a
    wrapper at all, what follows is one validation of the instance. *)
Lemma wrapped_init after_init st n c kwargs :
  kwargs !! "self" = None ->
  Nat.iter n (_validate_after_init after_init st) original_init (VObj c ∅) kwargs
  = match n with
    | 0 => Ok (VObj c kwargs)
    | S _ => _ <- after_init st (VObj c kwargs) ;; Ok (VObj c kwargs)
    end.
Proof.
  intros Hself. induction n as [|n IH].
  - simpl. by rewrite right_id_dict.
  - change (Nat.iter (S n) ?f ?x) with (f (Nat.iter n f x)).
    unfold _validate_after_init at 1. rewrite Hself, IH.
    destruct n as [|n]; [done|].
    by destruct (after_init st (VObj c kwargs)) as [[]|e] eqn:Hv; simpl; rewrite ?Hv.
Qed.

Lemma construct_bound after_init st c kwargs :
  0 < validating_inits st c ->
  construct after_init st (Model c) kwargs
  = match kwargs !! "self" with
    | Some _ => Raise TypeError
    | None => _ <- after_init st (VObj (Model c) kwargs) ;;
              Ok (VObj (Model c) kwargs)
    end.
Proof.
  intros Hwrapped. unfold construct.
  destruct (validating_inits st c) as [|n] eqn:Hn; [lia|].
  destruct (kwargs !! "self") as [v|] eqn:Hself.
  - change (Nat.iter (S n) ?f ?x) with (f (Nat.iter n f x)).
    unfold _validate_after_init at 1. by rewrite Hself.
  - by rewrite wrapped_init.
Qed.

Lemma construct_instance after_init st c kwargs v :
  construct after_init st c kwargs = Ok v -> v = VObj c kwargs.
Proof.
  destruct c as [|name].
  - unfold construct, original_init. rewrite right_id_dict. by intros [= <-].
  - destruct (validating_inits st name) as [|n] eqn:Hn.
    + unfold construct. rewrite Hn. simpl. rewrite right_id_dict. by intros [= <-].
    + rewrite construct_bound by lia.
      destruct (kwargs !! "self"); [done|].
      destruct (after_init st (VObj (Model name) kwargs)); simpl; [|done].
      by intros [= <-].
Qed.

Lemma from_dict_instance after_init st c s d v :
  cls_schema st c = Some s ->
  _from_dict after_init st c d = Ok v ->
  exists cls attrs, model_cls st s = Some cls /\ v = VObj cls attrs.
Proof.
  intros Hs. unfold _from_dict, schema_load, make_model. rewrite Hs.
  destruct (Marshmallow.fields_load _ _) as [valid_data errs].
  destruct (decide (errs = ∅)) as [->|Hne]; simpl.
  - destruct (model_cls st s) as [cls|]; [|done].
    destruct (construct _ _ _ _) as [obj|] eqn:Hobj; simpl; [|done].
    intros [= <-]. apply construct_instance in Hobj. eauto.
  - by rewrite decide_False.
Qed.

(** C8: the binder of [models/base.py] returns a store for every input, so
    binding [s] a second time cannot raise; it overwrites [model_cls] of
    [s], and from then on [from_dict] of either model class gives the same
    result, an instance of the class bound last. *)
Theorem rebinding_overwrites_model_cls st s a b d v :
  let st2 := Models.bind_schema (Models.bind_schema st s a) s b in
  Models.from_dict st2 a d = Ok v ->
  model_cls st2 s = Some (Model b)
  /\ Models.from_dict st2 b d = Ok v
  /\ exists attrs, v = VObj (Model b) attrs.
Proof.
  intros st2 Hload.
  assert (Hm : model_cls st2 s = Some (Model b)).
  { apply model_cls_own. simpl. by rewrite upd_eq. }
  assert (Ha : cls_schema st2 a = Some s).
  { simpl. unfold upd. repeat case_decide; done. }
  assert (Hb : cls_schema st2 b = Some s) by (simpl; by rewrite upd_eq).
  split; [done|]. split.
  - revert Hload. unfold Models.from_dict, _from_dict. by rewrite Ha, Hb.
  - destruct (from_dict_instance _ _ _ _ _ _ Ha Hload) as (cls & attrs & Hcls & ->).
    rewrite Hm in Hcls. injection Hcls as <-. eauto.
Qed.

(** ** Construction *)

Lemma plain_lookup attrs name :
  plain attrs = true -> name ∈ installed -> attrs !! name = None.
Proof.
  unfold plain. rewrite forallb_forall. intros Hall Hin.
  specialize (Hall name). rewrite <- list_elem_of_In in Hall.
  specialize (Hall Hin). by destruct (attrs !! name).
Qed.

Lemma no_self_lookup kwargs : no_self kwargs = true <-> kwargs !! "self" = None.
Proof. unfold no_self. by destruct (kwargs !! "self"). Qed.

(** What [self._validate()] comes to on an instance whose [__dict__] hides
    no installed name. *)
Lemma call__validate_plain st c s attrs :
  plain attrs = true -> cls_schema st c = Some s ->
  Validation.call__validate st (VObj (Model c) attrs)
  = (data <- _to_dict st (VObj (Model c) attrs) ;;
     let errs := Marshmallow.validate (declared_fields st s) (plain_entries data) in
     if decide (errs = ∅) then Ok tt
     else Raise (ValidationError (FieldErrors errs))).
Proof.
  intros Hplain Hs.
  unfold Validation.call__validate, Validation._validate, validate_instance, call_to_dict.
  rewrite !(plain_lookup attrs) by (done || set_solver).
  simpl. by rewrite Hs.
Qed.

Lemma to_dict_plain st c s attrs :
  plain attrs = true -> cls_schema st c = Some s ->
  Validation.to_dict st (VObj (Model c) attrs) = _to_dict st (VObj (Model c) attrs).
Proof.
  intros Hplain Hs. unfold Validation.to_dict, call_to_dict.
  rewrite (plain_lookup attrs) by (done || set_solver). simpl. by rewrite Hs.
Qed.

Lemma new_bound st c kwargs :
  0 < validating_inits st c ->
  Validation.new st (Model c) kwargs
  = (if no_self kwargs then
       _ <- Validation.call__validate st (VObj (Model c) kwargs) ;;
       Ok (VObj (Model c) kwargs)
     else Raise TypeError).
Proof.
  intros Hwrapped. unfold Validation.new, no_self. rewrite construct_bound by done.
  by destruct (kwargs !! "self").
Qed.


(** ** The field loop *)

Section FieldLoop.
Variable fs : gmap string Marshmallow.field.
Implicit Types (raw attrs : dict) (name : string).

Lemma fields_load_valid raw name :
  (Marshmallow.fields_load fs raw).1 !! name
  = fs !! name ≫= fun f => Marshmallow.valid_part (Marshmallow.load_field raw name f).
Proof. apply map_lookup_imap. Qed.

Lemma validate_lookup raw name :
  Marshmallow.validate fs raw !! name
  = fs !! name ≫= fun f => Marshmallow.invalid_part (Marshmallow.load_field raw name f).
Proof. apply map_lookup_imap. Qed.

Lemma fields_dump_valid attrs name :
  (Marshmallow.fields_dump fs attrs).1 !! name
  = fs !! name ≫= fun f => Marshmallow.valid_part (Marshmallow.dump_field attrs name f).
Proof. apply map_lookup_imap. Qed.

Lemma fields_dump_errors attrs name :
  (Marshmallow.fields_dump fs attrs).2 !! name
  = fs !! name ≫= fun f => Marshmallow.invalid_part (Marshmallow.dump_field attrs name f).
Proof. apply map_lookup_imap. Qed.

Lemma validate_missing raw name f :
  fs !! name = Some f -> raw !! name = None -> Marshmallow.required f = true ->
  Marshmallow.validate fs raw !! name = Some Marshmallow.missing_required.
Proof.
  intros Hf Hraw Hreq. rewrite validate_lookup, Hf. simpl.
  unfold Marshmallow.load_field. by rewrite Hraw, Hreq.
Qed.

Lemma validate_invalid raw name f w msgs :
  fs !! name = Some f -> raw !! name = Some w ->
  Marshmallow._deserialize f w = Marshmallow.Invalid msgs ->
  Marshmallow.validate fs raw !! name = Some msgs.
Proof.
  intros Hf Hraw Hbad. rewrite validate_lookup, Hf. simpl.
  unfold Marshmallow.load_field. by rewrite Hraw, Hbad.
Qed.

(** The errors have an entry exactly for the fields that fail. *)
Lemma field_fails_iff raw name :
  field_fails fs raw name <-> is_Some (Marshmallow.validate fs raw !! name).
Proof.
  split.
  - intros (f & Hf & [[Hraw Hreq] | (w & msgs & Hraw & Hbad)]).
    + erewrite validate_missing; eauto.
    + erewrite validate_invalid; eauto.
  - intros [msgs Hmsgs]. rewrite validate_lookup in Hmsgs.
    destruct (fs !! name) as [f|] eqn:Hf; [|done]. simpl in Hmsgs.
    exists f. split; [done|]. unfold Marshmallow.load_field in Hmsgs.
    destruct (raw !! name) as [w|] eqn:Hraw.
    + right. exists w, msgs. split; [done|].
      simpl in Hmsgs. by destruct (Marshmallow._deserialize f w); simplify_eq.
    + left. split; [done|]. by destruct (Marshmallow.required f).
Qed.

Lemma validate_empty raw :
  Marshmallow.validate fs raw = ∅ <-> forall name, ~ field_fails fs raw name.
Proof.
  split.
  - intros Hempty name Hfails. apply field_fails_iff in Hfails.
    rewrite Hempty, lookup_empty in Hfails. by destruct Hfails.
  - intros Hnone. apply map_empty. intros name.
    apply eq_None_not_Some. rewrite <- field_fails_iff. apply Hnone.
Qed.
End FieldLoop.

(** C7: when a declared field of the input is invalid or a required one is
    missing, [from_dict] raises [ValidationError] with the errors of the
    load, returns nothing else, and those errors have an entry, with its
    messages, for every field that fails and for no other. *)
Theorem from_dict_raises_every_field_error st c s d failing :
  cls_schema st c = Some s ->
  field_fails (declared_fields st s) d failing ->
  let errs := Marshmallow.validate (declared_fields st s) d in
  Validation.from_dict st c d = Raise (ValidationError (FieldErrors errs))
  /\ (forall name, field_fails (declared_fields st s) d name <-> is_Some (errs !! name))
  /\ (forall name f, declared_fields st s !! name = Some f ->
        d !! name = None -> Marshmallow.required f = true ->
        errs !! name = Some Marshmallow.missing_required)
  /\ (forall name f w msgs, declared_fields st s !! name = Some f ->
        d !! name = Some w ->
        Marshmallow._deserialize f w = Marshmallow.Invalid msgs ->
        errs !! name = Some msgs).
Proof.
  intros Hs Hfails errs. subst errs. split; [|split; [|split]].
  - unfold Validation.from_dict, _from_dict, schema_load. rewrite Hs.
    unfold Marshmallow.validate.
    destruct (Marshmallow.fields_load (declared_fields st s) d) as [valid_data errs] eqn:Hload.
    simpl. assert (Hne : errs <> ∅).
    { intros ->. apply field_fails_iff in Hfails. unfold Marshmallow.validate in Hfails.
      rewrite Hload in Hfails. simpl in Hfails. rewrite lookup_empty in Hfails.
      by destruct Hfails. }
    rewrite decide_False by done. simpl. by rewrite decide_False.
  - intros name. apply field_fails_iff.
  - intros name f. apply validate_missing.
  - intros name f w msgs. apply validate_invalid.
Qed.

(** ** The hooks and the installed methods *)

#[local] Arguments Marshmallow.fields_dump : simpl never.
#[local] Arguments Marshmallow.fields_load : simpl never.
#[local] Arguments Marshmallow.validate : simpl never.

Lemma additional_data_union (valid_data original_data : dict) :
  valid_data ∪ filter (fun kv => kv.1 ∈ dom original_data ∖ dom valid_data) original_data
  = valid_data ∪ original_data.
Proof.
  apply map_eq. intros k.
  destruct (valid_data !! k) as [v|] eqn:Hv.
  - by rewrite !(lookup_union_Some_l _ _ _ _ Hv).
  - rewrite !lookup_union_r by done.
    destruct (original_data !! k) as [w|] eqn:Hw.
    + apply map_lookup_filter_Some. split; [done|]. simpl.
      apply elem_of_difference.
      split; [by apply elem_of_dom_2 in Hw | by apply not_elem_of_dom].
    + apply map_lookup_filter_None. by left.
Qed.

Lemma union_lookup (m1 m2 : dict) k :
  (m1 ∪ m2) !! k = match m1 !! k with Some v => Some v | None => m2 !! k end.
Proof. rewrite lookup_union. destruct (m1 !! k), (m2 !! k); done. Qed.

Lemma load_additional_data_lookup (valid_data raw : dict) k :
  load_additional_data valid_data raw !! k
  = match valid_data !! k with Some v => Some v | None => raw !! k end.
Proof. unfold load_additional_data. by rewrite additional_data_union, union_lookup. Qed.

(** A value the dump produced wins; for every other key of the [__dict__]
    the hook stores what [getattr] gives. *)
Lemma dump_additional_data_lookup (valid_data : dict) c (attrs : dict) k :
  dump_additional_data valid_data c attrs !! k
  = match valid_data !! k with
    | Some v => Some (Plain v)
    | None => if attrs !! k is Some _ then getattr c attrs k else None
    end.
Proof.
  unfold dump_additional_data. rewrite lookup_union, lookup_fmap, map_lookup_imap.
  destruct (valid_data !! k) as [v|] eqn:Hv; simpl.
  - by rewrite union_Some_l.
  - rewrite (left_id_L None _).
    destruct (attrs !! k) as [w|] eqn:Hw.
    + assert (Hf : filter (fun kv : string * value => kv.1 ∈ dom attrs ∖ dom valid_data)
                     attrs !! k = Some w).
      { apply map_lookup_filter_Some. split; [done|]. simpl. apply elem_of_difference.
        split; [by apply elem_of_dom_2 in Hw | by apply not_elem_of_dom]. }
      by rewrite Hf.
    + assert (Hf : filter (fun kv : string * value => kv.1 ∈ dom attrs ∖ dom valid_data)
                     attrs !! k = None).
      { apply map_lookup_filter_None. by left. }
      by rewrite Hf.
Qed.

Lemma getattr_ordinary c (attrs : dict) k :
  k ∉ descriptor_names -> getattr c attrs k = Plain <$> attrs !! k.
Proof.
  intros Hk. unfold getattr.
  repeat (case_decide; [subst k; exfalso; apply Hk; unfold descriptor_names; set_solver|]).
  done.
Qed.

Lemma ordinary_lookup (attrs : dict) k :
  ordinary attrs = true -> is_Some (attrs !! k) -> k ∉ descriptor_names.
Proof.
  unfold ordinary. rewrite forallb_forall. intros Hall [v Hv] Hin.
  apply list_elem_of_In in Hin. specialize (Hall k Hin). by rewrite Hv in Hall.
Qed.

Lemma plain_entries_lookup (data : out_dict) k :
  plain_entries data !! k
  = data !! k ≫= fun o => match o with Plain v => Some v | ClassObject _ => None end.
Proof. apply lookup_omap. Qed.

Lemma plain_entries_fmap (d : dict) : plain_entries (Plain <$> d) = d.
Proof.
  apply map_eq. intros k. rewrite plain_entries_lookup, lookup_fmap.
  by destruct (d !! k).
Qed.

(** When no entry of the [__dict__] has the name of a data descriptor, the
    dumped dictionary is made of values: those the dump produced and the
    other attributes as they are. *)
Lemma dump_additional_data_ordinary (valid_data : dict) c (attrs : dict) :
  ordinary attrs = true ->
  dump_additional_data valid_data c attrs = Plain <$> (valid_data ∪ attrs).
Proof.
  intros Hord. apply map_eq. intros k.
  rewrite dump_additional_data_lookup, lookup_fmap, union_lookup.
  destruct (valid_data !! k) as [v|]; [done|].
  destruct (attrs !! k) as [w|] eqn:Hw; [|done].
  rewrite getattr_ordinary, Hw; [done|]. apply (ordinary_lookup attrs); eauto.
Qed.

Lemma call_on_data_raises {A B} (v : value) meth (args : result A) :
  exists e, call_on_data (B:=B) v meth args = Raise e.
Proof.
  destruct v as [| | | |c d]; simpl; eauto.
  destruct (d !! meth); eauto. destruct args; simpl; eauto.
Qed.

(** [_to_dict] on an instance whose [__dict__] does not hide [schema]. *)
Lemma _to_dict_schema st c s attrs :
  attrs !! "schema" = None -> class_schema st c = Some s ->
  _to_dict st (VObj c attrs)
  = let dumped := Marshmallow.fields_dump (declared_fields st s) attrs in
    if decide (dumped.2 = ∅) then Ok (dump_additional_data dumped.1 c attrs)
    else Raise (ValidationError (FieldErrors dumped.2)).
Proof.
  intros Hschema Hs. unfold _to_dict, schema_dump. rewrite Hschema, Hs.
  destruct (Marshmallow.fields_dump (declared_fields st s) attrs) as [valid_data errs].
  cbv zeta. cbn [fst snd].
  destruct (decide (errs = ∅)) as [->|Hne]; [by rewrite decide_True|].
  by rewrite decide_False.
Qed.

Lemma _to_dict_plain st c s attrs :
  plain attrs = true -> cls_schema st c = Some s ->
  _to_dict st (VObj (Model c) attrs)
  = let dumped := Marshmallow.fields_dump (declared_fields st s) attrs in
    if decide (dumped.2 = ∅) then Ok (dump_additional_data dumped.1 (Model c) attrs)
    else Raise (ValidationError (FieldErrors dumped.2)).
Proof.
  intros Hplain Hs. apply _to_dict_schema; [|done].
  apply plain_lookup; [done|set_solver].
Qed.

(** A constructor call that returns was given a [__dict__] that hides no
    installed name. *)
Lemma call__validate_ok_plain st c attrs :
  Validation.call__validate st (VObj (Model c) attrs) = Ok tt -> plain attrs = true.
Proof.
  unfold Validation.call__validate, Validation._validate, validate_instance.
  unfold plain, installed. cbn [forallb class_schema].
  destruct (attrs !! "_validate"); [done|].
  destruct (cls_schema st c) eqn:Hs; [|done].
  destruct (attrs !! "schema") as [v|].
  { destruct (call_on_data_raises (B:=unit) v "validate"
                (call_to_dict st (VObj (Model c) attrs))) as [e ->]. done. }
  unfold call_to_dict. by destruct (attrs !! "to_dict").
Qed.

(** ** What is validated *)

(** The load of marshmallow reads the declared keys of its input only. *)
Lemma fields_load_agree fs (raw1 raw2 : dict) :
  (forall k, is_Some (fs !! k) -> raw1 !! k = raw2 !! k) ->
  Marshmallow.fields_load fs raw1 = Marshmallow.fields_load fs raw2.
Proof.
  intros Hagree.
  assert (Hfield : forall name f, fs !! name = Some f ->
            Marshmallow.load_field raw1 name f = Marshmallow.load_field raw2 name f).
  { intros name f Hf. unfold Marshmallow.load_field. by rewrite Hagree by eauto. }
  unfold Marshmallow.fields_load. f_equal; apply map_eq; intros name;
    rewrite !map_lookup_imap; destruct (fs !! name) as [f|] eqn:Hf; simpl;
    try done; by rewrite (Hfield name f Hf).
Qed.

Lemma fields_dump_agree fs (attrs1 attrs2 : dict) :
  (forall k, is_Some (fs !! k) -> attrs1 !! k = attrs2 !! k) ->
  Marshmallow.fields_dump fs attrs1 = Marshmallow.fields_dump fs attrs2.
Proof.
  intros Hagree.
  assert (Hfield : forall name f, fs !! name = Some f ->
            Marshmallow.dump_field attrs1 name f = Marshmallow.dump_field attrs2 name f).
  { intros name f Hf. unfold Marshmallow.dump_field. by rewrite Hagree by eauto. }
  unfold Marshmallow.fields_dump. f_equal; apply map_eq; intros name;
    rewrite !map_lookup_imap; destruct (fs !! name) as [f|] eqn:Hf; simpl;
    try done; by rewrite (Hfield name f Hf).
Qed.

Section Dumped.
Variable fs : gmap string Marshmallow.field.
Variable c : model_ref.
Variable attrs : dict.

Let dumped := Marshmallow.fields_dump fs attrs.
Let data := dump_additional_data dumped.1 c attrs.

(** What [dump] produces for a declared field. *)
Lemma dumped_valid k :
  dumped.1 !! k
  = match fs !! k with
    | Some f =>
        match attrs !! k with
        | Some v =>
            match Marshmallow._serialize f v with
            | Marshmallow.Valid w => Some w
            | Marshmallow.Invalid _ => None
            end
        | None => Marshmallow.default f
        end
    | None => None
    end.
Proof.
  unfold dumped. rewrite fields_dump_valid. unfold Marshmallow.dump_field.
  destruct (fs !! k) as [f|]; simpl; [|done].
  destruct (attrs !! k) as [v|]; simpl.
  - by destruct (Marshmallow._serialize f v).
  - by destruct (Marshmallow.default f).
Qed.

Lemma dump_errors_empty :
  dumped.2 = ∅ <->
  forall k f v, fs !! k = Some f -> attrs !! k = Some v ->
    exists w, Marshmallow._serialize f v = Marshmallow.Valid w.
Proof.
  unfold dumped. split.
  - intros Hempty k f v Hf Hv.
    pose proof (fields_dump_errors fs attrs k) as Hk.
    rewrite Hempty, lookup_empty, Hf in Hk. simpl in Hk.
    unfold Marshmallow.dump_field in Hk. rewrite Hv in Hk. simpl in Hk.
    destruct (Marshmallow._serialize f v); [eauto|done].
  - intros Hall. apply map_empty. intros k. rewrite fields_dump_errors.
    destruct (fs !! k) as [f|] eqn:Hf; [|done]. simpl.
    unfold Marshmallow.dump_field.
    destruct (attrs !! k) as [v|] eqn:Hv; [|by destruct (Marshmallow.default f)].
    simpl. by destruct (Hall k f v Hf Hv) as [w ->].
Qed.

(** When the dump has no errors, the dumped dictionary has, at every
    declared key, what the dump produced and nothing else: the validation of
    the instance is the validation of what its declared fields dumped. *)
Lemma validate_dumped :
  dumped.2 = ∅ ->
  Marshmallow.validate fs (plain_entries data) = Marshmallow.validate fs dumped.1.
Proof.
  intros Hempty. unfold Marshmallow.validate. f_equal. apply fields_load_agree.
  intros k [f Hf]. unfold data.
  rewrite plain_entries_lookup, dump_additional_data_lookup.
  destruct (dumped.1 !! k) as [w|] eqn:Hw; [done|].
  destruct (attrs !! k) as [v|] eqn:Hv; [|done].
  rewrite dumped_valid, Hf, Hv in Hw.
  destruct (proj1 dump_errors_empty Hempty k f v Hf Hv) as [w Hser].
  by rewrite Hser in Hw.
Qed.

(** Arguments every declared field accepts dump without errors into a
    dictionary that validates. *)
Lemma accepted_valid :
  (forall k f, fs !! k = Some f -> accepted f (attrs !! k)) ->
  dumped.2 = ∅ /\ Marshmallow.validate fs dumped.1 = ∅.
Proof.
  intros Hacc. split.
  - apply dump_errors_empty. intros k f v Hf Hv.
    specialize (Hacc k f Hf). rewrite Hv in Hacc.
    destruct Hacc as (w & _ & Hw & _). eauto.
  - apply validate_empty. intros k (f & Hf & Hfail).
    specialize (Hacc k f Hf). rewrite dumped_valid, Hf in Hfail.
    destruct (attrs !! k) as [v|]; simpl in Hacc.
    + destruct Hacc as (w & u & Hw & Hu). rewrite Hw in Hfail.
      destruct Hfail as [[? _] | (w' & msgs & [= <-] & Hbad)]; [done|congruence].
    + destruct (Marshmallow.default f) as [w|].
      * destruct Hacc as [u Hu].
        destruct Hfail as [[? _] | (w' & msgs & [= <-] & Hbad)]; [done|congruence].
      * destruct Hfail as [[_ Hreq] | (w' & msgs & ? & _)]; [congruence|done].
Qed.

(** Without a value for a required field that has no default, what was
    dumped has an error for it. *)
Lemma omitted_required name f :
  fs !! name = Some f -> Marshmallow.required f = true ->
  Marshmallow.default f = None -> attrs !! name = None ->
  Marshmallow.validate fs dumped.1 !! name = Some Marshmallow.missing_required.
Proof.
  intros Hf Hreq Hdefault Hnone.
  apply (validate_missing fs dumped.1 name f); [done| |done].
  by rewrite dumped_valid, Hf, Hnone.
Qed.
End Dumped.

(** The constructor of a bound class, on keyword arguments that hide no
    installed name. *)
Lemma new_plain st c s kwargs :
  cls_schema st c = Some s -> 0 < validating_inits st c ->
  plain kwargs = true ->
  Validation.new st (Model c) kwargs
  = (if no_self kwargs then
       let dumped := Marshmallow.fields_dump (declared_fields st s) kwargs in
       if decide (dumped.2 = ∅) then
         let errs := Marshmallow.validate (declared_fields st s) dumped.1 in
         if decide (errs = ∅) then Ok (VObj (Model c) kwargs)
         else Raise (ValidationError (FieldErrors errs))
       else Raise (ValidationError (FieldErrors dumped.2))
     else Raise TypeError).
Proof.
  intros Hs Hwrapped Hplain. rewrite new_bound by done.
  destruct (no_self kwargs); [|done].
  rewrite (call__validate_plain _ _ _ _ Hplain Hs).
  rewrite (_to_dict_plain _ _ _ _ Hplain Hs). cbv zeta.
  destruct (decide (_.2 = ∅)) as [Hd|]; cbn [bind_result]; [|done].
  rewrite (validate_dumped _ _ _ Hd).
  by destruct (decide (Marshmallow.validate _ _ = ∅)).
Qed.

(** What a successful constructor call of a bound class says about its
    keyword arguments. *)
Lemma new_ok_inv st c s kwargs m :
  cls_schema st c = Some s -> 0 < validating_inits st c ->
  Validation.new st (Model c) kwargs = Ok m ->
  let dumped := Marshmallow.fields_dump (declared_fields st s) kwargs in
  m = VObj (Model c) kwargs /\ no_self kwargs = true /\ plain kwargs = true
  /\ dumped.2 = ∅ /\ Marshmallow.validate (declared_fields st s) dumped.1 = ∅.
Proof.
  intros Hs Hwrapped Hnew dumped.
  assert (Hplain : plain kwargs = true).
  { rewrite new_bound in Hnew by done. destruct (no_self kwargs); [|done].
    destruct (Validation.call__validate st (VObj (Model c) kwargs)) as [[]|e] eqn:Hv;
      [|done].
    by apply call__validate_ok_plain in Hv. }
  rewrite (new_plain _ _ _ _ Hs Hwrapped Hplain) in Hnew. cbv zeta in Hnew.
  fold dumped in Hnew.
  destruct (no_self kwargs); [|done].
  destruct (decide (dumped.2 = ∅)); [|done].
  destruct (decide (Marshmallow.validate (declared_fields st s) dumped.1 = ∅)); [|done].
  by injection Hnew as <-.
Qed.

Lemma new_ok_intro st c s kwargs :
  cls_schema st c = Some s -> 0 < validating_inits st c ->
  no_self kwargs = true -> plain kwargs = true ->
  let dumped := Marshmallow.fields_dump (declared_fields st s) kwargs in
  dumped.2 = ∅ ->
  Marshmallow.validate (declared_fields st s) dumped.1 = ∅ ->
  Validation.new st (Model c) kwargs = Ok (VObj (Model c) kwargs).
Proof.
  intros Hs Hwrapped Hself Hplain dumped Hd Hv.
  rewrite (new_plain _ _ _ _ Hs Hwrapped Hplain), Hself. cbv zeta. fold dumped.
  by rewrite !decide_True.
Qed.

(** ** Required fields *)

Lemma plain_insert attrs name v :
  attrs !! name = None -> plain (<[name:=v]> attrs) = true -> plain attrs = true.
Proof.
  unfold plain. rewrite !forallb_forall. intros Hnone Hall k Hk.
  specialize (Hall k Hk). destruct (decide (name = k)) as [<-|Hne].
  - by rewrite Hnone.
  - by rewrite lookup_insert_ne in Hall.
Qed.

(** C4, as the code has it: for a bound class whose schema declares a
    required field, a constructor call without that field raises
    [ValidationError] when the field has no default and no keyword argument
    is named [self] or hides an installed name; and a call with the field
    returns the instance when no keyword argument is so named and every
    declared field accepts what it is given. *)
Theorem required_field_is_enforced st c s name f :
  cls_schema st c = Some s -> 0 < validating_inits st c ->
  declared_fields st s !! name = Some f -> Marshmallow.required f = true ->
  (forall kwargs,
     Marshmallow.default f = None ->
     kwargs !! name = None ->
     no_self kwargs = true -> plain kwargs = true ->
     is_validation_error (Validation.new st (Model c) kwargs) = true)
  /\ (forall kwargs v,
        no_self (<[name:=v]> kwargs) = true -> plain (<[name:=v]> kwargs) = true ->
        (forall k g, declared_fields st s !! k = Some g ->
                     accepted g (<[name:=v]> kwargs !! k)) ->
        Validation.new st (Model c) (<[name:=v]> kwargs)
        = Ok (VObj (Model c) (<[name:=v]> kwargs))).
Proof.
  intros Hs Hwrapped Hf Hreq. split.
  - intros kwargs Hdefault Hnone Hself Hplain.
    pose proof (omitted_required (declared_fields st s) kwargs name f
                  Hf Hreq Hdefault Hnone) as Hmiss.
    rewrite (new_plain _ _ _ _ Hs Hwrapped Hplain), Hself. cbv zeta.
    destruct (decide (_.2 = ∅)); [|done].
    destruct (decide (Marshmallow.validate _ _ = ∅)) as [Hempty|]; [|done].
    by rewrite Hempty, lookup_empty in Hmiss.
  - intros kwargs v Hself Hplain Hacc.
    apply (new_ok_intro st c s); [done..| |].
    + by apply accepted_valid.
    + by apply accepted_valid.
Qed.

(** ** Round trips *)

Lemma from_dict_unfold st c s d :
  cls_schema st c = Some s ->
  Validation.from_dict st c d
  = let loaded := Marshmallow.fields_load (declared_fields st s) d in
    if decide (loaded.2 = ∅)
    then make_model Validation.call__validate st s (load_additional_data loaded.1 d)
    else Raise (ValidationError (FieldErrors loaded.2)).
Proof.
  intros Hs. unfold Validation.from_dict, _from_dict, schema_load. rewrite Hs.
  destruct (Marshmallow.fields_load (declared_fields st s) d) as [valid_data errs].
  cbv zeta. cbn [fst snd].
  destruct (decide (errs = ∅)) as [->|Hne]; cbn [bind_result].
  - destruct (make_model _ _ _ _) as [obj|e]; cbn [bind_result fst snd]; [|done].
    by rewrite decide_True.
  - cbn [fst snd]. by rewrite decide_False.
Qed.

Lemma make_model_bound st c s data :
  bound_to st c s ->
  make_model Validation.call__validate st s data = Validation.new st (Model c) data.
Proof. intros (_ & Hm & _). unfold make_model. by rewrite Hm. Qed.

Lemma load_errors_empty fs (raw : dict) k f w :
  Marshmallow.validate fs raw = ∅ -> fs !! k = Some f -> raw !! k = Some w ->
  exists v, Marshmallow._deserialize f w = Marshmallow.Valid v.
Proof.
  intros Hempty Hf Hw.
  destruct (Marshmallow._deserialize f w) as [v|msgs] eqn:Hd; [eauto|].
  pose proof (validate_invalid fs raw k f w msgs Hf Hw Hd) as Hk.
  by rewrite Hempty, lookup_empty in Hk.
Qed.

(** The loaded fields and the other keys of the input, key by key. *)
Lemma loaded_lookup fs (raw : dict) k :
  load_additional_data (Marshmallow.fields_load fs raw).1 raw !! k
  = match fs !! k, raw !! k with
    | Some f, Some w =>
        match Marshmallow._deserialize f w with
        | Marshmallow.Valid v => Some v
        | Marshmallow.Invalid _ => Some w
        end
    | _, o => o
    end.
Proof.
  rewrite load_additional_data_lookup, fields_load_valid.
  unfold Marshmallow.load_field.
  destruct (fs !! k) as [f|]; simpl; [|done].
  destruct (raw !! k) as [w|]; simpl.
  - by destruct (Marshmallow._deserialize f w).
  - by destruct (Marshmallow.required f).
Qed.

(** The dumped fields and the other attributes, key by key. *)
Lemma dumped_union_lookup fs (attrs : dict) k :
  ((Marshmallow.fields_dump fs attrs).1 ∪ attrs) !! k
  = match fs !! k with
    | Some f =>
        match attrs !! k with
        | Some v =>
            match Marshmallow._serialize f v with
            | Marshmallow.Valid w => Some w
            | Marshmallow.Invalid _ => Some v
            end
        | None => Marshmallow.default f
        end
    | None => attrs !! k
    end.
Proof.
  rewrite union_lookup. rewrite (dumped_valid fs attrs k).
  destruct (fs !! k) as [f|]; simpl; [|done].
  destruct (attrs !! k) as [v|]; simpl.
  - by destruct (Marshmallow._serialize f v).
  - by destruct (Marshmallow.default f).
Qed.

(** Loading what was dumped gives the attributes back. *)
Lemma load_dump_attrs fs (attrs : dict) :
  load_undoes_dump fs attrs ->
  let dumped := Marshmallow.fields_dump fs attrs in
  let data := dumped.1 ∪ attrs in
  dumped.2 = ∅ ->
  load_additional_data (Marshmallow.fields_load fs data).1 data = attrs.
Proof.
  intros Hundo dumped data Hd. apply map_eq. intros k.
  rewrite loaded_lookup. subst data dumped. rewrite dumped_union_lookup.
  destruct (fs !! k) as [f|] eqn:Hf; [|done].
  specialize (Hundo k f Hf).
  destruct (attrs !! k) as [v|] eqn:Hv; [|by rewrite Hundo].
  destruct (proj1 (dump_errors_empty fs attrs) Hd k f v Hf Hv) as [w Hw].
  rewrite Hw. by rewrite (Hundo w Hw).
Qed.

(** Dumping what was loaded gives the input back. *)
Lemma dump_load_raw fs (raw : dict) :
  dump_undoes_load fs raw ->
  Marshmallow.validate fs raw = ∅ ->
  let attrs := load_additional_data (Marshmallow.fields_load fs raw).1 raw in
  (Marshmallow.fields_dump fs attrs).1 ∪ attrs = raw.
Proof.
  intros Hundo Hempty attrs. apply map_eq. intros k.
  rewrite dumped_union_lookup. subst attrs. rewrite loaded_lookup.
  destruct (fs !! k) as [f|] eqn:Hf; [|done].
  specialize (Hundo k f Hf).
  destruct (raw !! k) as [w|] eqn:Hw; [|done].
  destruct (load_errors_empty fs raw k f w Hempty Hf Hw) as [v Hv].
  rewrite Hv. by rewrite (Hundo v Hv).
Qed.

(** What is validated after a dump is what [load] sees in the dumped
    dictionary. *)
Lemma validate_dumped_union fs (attrs : dict) :
  Marshmallow.validate fs ((Marshmallow.fields_dump fs attrs).1 ∪ attrs)
  = Marshmallow.validate fs (plain_entries (Plain <$>
      ((Marshmallow.fields_dump fs attrs).1 ∪ attrs))).
Proof. by rewrite plain_entries_fmap. Qed.

Lemma loaded_absent fs (raw : dict) k :
  raw !! k = None ->
  load_additional_data (Marshmallow.fields_load fs raw).1 raw !! k = None.
Proof.
  intros Hnone. rewrite loaded_lookup, Hnone. by destruct (fs !! k).
Qed.

Lemma loaded_ordinary fs (raw : dict) :
  ordinary raw = true ->
  ordinary (load_additional_data (Marshmallow.fields_load fs raw).1 raw) = true.
Proof.
  unfold ordinary. rewrite !forallb_forall. intros Hall name Hname.
  specialize (Hall name Hname).
  destruct (raw !! name) eqn:Hraw; [done|]. by rewrite loaded_absent.
Qed.

(** C1, as the code has it: for a class bound to a schema, every instance
    a constructor call returned, if none of its attributes is named
    [__class__], [__dict__] or [__weakref__], loading gives back each
    attribute a declared field dumps and no default is dumped for a missing
    one, dumps to a dictionary of values that [from_dict] loads back into
    the same instance, declared and additional attributes alike; and every
    dictionary without those three keys that [from_dict] loads, if dumping
    gives back each entry a declared field loads and no default is dumped
    for a missing one, is what [to_dict] gives for the loaded instance. *)
Theorem round_trip st c s :
  bound_to st c s ->
  (forall kwargs m,
     ordinary kwargs = true ->
     load_undoes_dump (declared_fields st s) kwargs ->
     Validation.new st (Model c) kwargs = Ok m ->
     exists d, Validation.to_dict st m = Ok (Plain <$> d)
               /\ Validation.from_dict st c d = Ok m)
  /\ (forall d m,
        ordinary d = true ->
        dump_undoes_load (declared_fields st s) d ->
        Validation.from_dict st c d = Ok m ->
        Validation.to_dict st m = Ok (Plain <$> d)).
Proof.
  intros Hbound. pose proof Hbound as (Hs & Hm & Hwrapped). split.
  - intros kwargs m Hord Hundo Hnew.
    destruct (new_ok_inv _ _ _ _ _ Hs Hwrapped Hnew) as (-> & Hself & Hplain & Hd & Hv).
    exists ((Marshmallow.fields_dump (declared_fields st s) kwargs).1 ∪ kwargs).
    split.
    + rewrite (to_dict_plain _ _ _ _ Hplain Hs), (_to_dict_plain _ _ _ _ Hplain Hs).
      cbv zeta. rewrite decide_True by done.
      by rewrite (dump_additional_data_ordinary _ _ _ Hord).
    + rewrite (from_dict_unfold _ _ _ _ Hs). cbv zeta.
      assert (Hvalid : Marshmallow.validate (declared_fields st s)
                ((Marshmallow.fields_dump (declared_fields st s) kwargs).1 ∪ kwargs) = ∅).
      { rewrite validate_dumped_union.
        rewrite <- (dump_additional_data_ordinary _ (Model c) _ Hord).
        by rewrite (validate_dumped _ _ _ Hd). }
      rewrite decide_True by exact Hvalid.
      rewrite (make_model_bound _ _ _ _ Hbound).
      by rewrite (load_dump_attrs _ _ Hundo Hd).
  - intros d m Hord Hundo Hload. rewrite (from_dict_unfold _ _ _ _ Hs) in Hload.
    cbv zeta in Hload.
    destruct (decide ((Marshmallow.fields_load (declared_fields st s) d).2 = ∅))
      as [Hempty|]; [|done].
    rewrite (make_model_bound _ _ _ _ Hbound) in Hload.
    destruct (new_ok_inv _ _ _ _ _ Hs Hwrapped Hload) as (-> & Hself & Hplain & Hd & _).
    rewrite (to_dict_plain _ _ _ _ Hplain Hs), (_to_dict_plain _ _ _ _ Hplain Hs).
    cbv zeta. rewrite decide_True by exact Hd.
    rewrite (dump_additional_data_ordinary _ _ _ (loaded_ordinary _ _ Hord)).
    by rewrite (dump_load_raw _ _ Hundo Hempty).
Qed.

(** C1 as stated fails in both directions.  [Person(name=5)] is valid: the
    string field dumps [5] as ["5"], which loads as the string, so what
    [from_dict] builds from the dumped dictionary differs from the model.
    And [{"name": "Foo", "__class__": 1}] loads, but [to_dict] of the loaded
    model holds under [__class__] the class that [getattr] gives, not [1]. *)
Lemma round_trip_fails :
  Validation.new TestModels.st_person (Model "Person") TestModels.five
  = Ok (VObj (Model "Person") TestModels.five)
  /\ Validation.to_dict TestModels.st_person (VObj (Model "Person") TestModels.five)
     = Ok (Plain <$> TestModels.five_dumped)
  /\ Validation.from_dict TestModels.st_person "Person" TestModels.five_dumped
     = Ok (VObj (Model "Person") TestModels.five_dumped)
  /\ VObj (Model "Person") TestModels.five_dumped <> VObj (Model "Person") TestModels.five
  /\ Validation.from_dict TestModels.st_person "Person" TestModels.foo_class
     = Ok (VObj (Model "Person") TestModels.foo_class)
  /\ Validation.to_dict TestModels.st_person (VObj (Model "Person") TestModels.foo_class)
     = Ok (<["__class__" := ClassObject (Model "Person")]> (Plain <$> TestModels.foo))
  /\ <["__class__" := ClassObject (Model "Person")]> (Plain <$> TestModels.foo)
     <> Plain <$> TestModels.foo_class.
Proof.
  split; [vm_compute; reflexivity|]. split; [vm_compute; reflexivity|].
  split; [vm_compute; reflexivity|]. split.
  { intros H.
    apply (f_equal (fun m => match m with VObj _ d => d !! "name" | _ => None end)) in H.
    vm_compute in H. discriminate. }
  split; [vm_compute; reflexivity|]. split; [vm_compute; reflexivity|].
  intros H. apply (f_equal (fun d : out_dict => d !! "__class__")) in H.
  vm_compute in H. discriminate.
Qed.

(** ** Undeclared keys *)

Section Undeclared.
Variable fs : gmap string Marshmallow.field.
Variables (k : string) (v : value).
Hypothesis undeclared : fs !! k = None.

Lemma fields_load_undeclared (raw : dict) :
  Marshmallow.fields_load fs (<[k:=v]> raw) = Marshmallow.fields_load fs raw.
Proof.
  apply fields_load_agree. intros name [f Hf].
  rewrite lookup_insert_ne; [done|]. intros <-. congruence.
Qed.

Lemma fields_dump_undeclared (attrs : dict) :
  Marshmallow.fields_dump fs (<[k:=v]> attrs) = Marshmallow.fields_dump fs attrs.
Proof.
  apply fields_dump_agree. intros name [f Hf].
  rewrite lookup_insert_ne; [done|]. intros <-. congruence.
Qed.

Lemma loaded_undeclared (raw : dict) :
  load_additional_data (Marshmallow.fields_load fs (<[k:=v]> raw)).1 (<[k:=v]> raw)
  = <[k:=v]> (load_additional_data (Marshmallow.fields_load fs raw).1 raw).
Proof.
  apply map_eq. intros name. rewrite loaded_lookup.
  destruct (decide (k = name)) as [<-|Hne].
  - by rewrite undeclared, !lookup_insert_eq.
  - by rewrite !lookup_insert_ne, loaded_lookup.
Qed.
End Undeclared.

Lemma plain_insert_other attrs k v :
  k ∉ installed -> plain attrs = true -> plain (<[k:=v]> attrs) = true.
Proof.
  unfold plain. rewrite !forallb_forall. intros Hk Hall name Hname.
  specialize (Hall name Hname). rewrite lookup_insert_ne; [done|].
  intros <-. by apply Hk, list_elem_of_In.
Qed.

Lemma no_self_insert_other kwargs k v :
  k <> "self" -> no_self kwargs = true -> no_self (<[k:=v]> kwargs) = true.
Proof. intros Hk. unfold no_self. by rewrite lookup_insert_ne. Qed.

(** A constructor call that returns still returns with one more keyword
    argument, when that argument is no declared field, is not named [self]
    and hides no installed name. *)
Lemma new_undeclared st c s kwargs m k v :
  cls_schema st c = Some s -> 0 < validating_inits st c ->
  declared_fields st s !! k = None -> k ∉ installed -> k <> "self" ->
  Validation.new st (Model c) kwargs = Ok m ->
  Validation.new st (Model c) (<[k:=v]> kwargs) = Ok (VObj (Model c) (<[k:=v]> kwargs)).
Proof.
  intros Hs Hwrapped Hk Hfree Hself Hnew.
  destruct (new_ok_inv _ _ _ _ _ Hs Hwrapped Hnew) as (_ & Hns & Hplain & Hd & Hv).
  apply (new_ok_intro st c s);
    [done|done|by apply no_self_insert_other|by apply plain_insert_other|..].
  - by rewrite fields_dump_undeclared.
  - by rewrite fields_dump_undeclared.
Qed.

Lemma getattr_insert_ne c (attrs : dict) k v k' :
  k' <> k -> k' <> "__dict__" ->
  getattr c (<[k:=v]> attrs) k' = getattr c attrs k'.
Proof.
  intros Hne Hdict. unfold getattr.
  rewrite lookup_insert_ne by done. by repeat case_decide.
Qed.

(** C5, as the code has it: when a dictionary loads, it still loads with one
    more key that is no declared field, is not [self], is none of the names
    the binder installs ([schema], [to_dict], [_validate]) and none of the
    names [getattr] answers without the instance dictionary ([__class__],
    [__dict__], [__weakref__]); the instance has the key as an attribute with
    the value given, its [to_dict] returns, holds the value under the key,
    and agrees with the [to_dict] of the first instance on every other key
    but [__dict__]. *)
Theorem undeclared_key_passes_through st c s d m k v :
  bound_to st c s ->
  declared_fields st s !! k = None ->
  k ∉ installed -> k <> "self" -> k ∉ descriptor_names ->
  Validation.from_dict st c d = Ok m ->
  exists attrs dumped dumped',
    m = VObj (Model c) attrs
    /\ Validation.to_dict st m = Ok dumped
    /\ Validation.from_dict st c (<[k:=v]> d) = Ok (VObj (Model c) (<[k:=v]> attrs))
    /\ <[k:=v]> attrs !! k = Some v
    /\ Validation.to_dict st (VObj (Model c) (<[k:=v]> attrs)) = Ok dumped'
    /\ dumped' !! k = Some (Plain v)
    /\ forall k', k' <> k -> k' <> "__dict__" -> dumped' !! k' = dumped !! k'.
Proof.
  intros Hbound Hk Hfree Hself Hdesc Hload. pose proof Hbound as (Hs & Hm & Hwrapped).
  rewrite (from_dict_unfold _ _ _ _ Hs) in Hload. cbv zeta in Hload.
  destruct (decide ((Marshmallow.fields_load (declared_fields st s) d).2 = ∅))
    as [Hempty|]; [|done].
  rewrite (make_model_bound _ _ _ _ Hbound) in Hload.
  set (attrs := load_additional_data _ d) in Hload.
  destruct (new_ok_inv _ _ _ _ _ Hs Hwrapped Hload) as (-> & Hns & Hplain & Hd & Hv).
  pose proof (plain_insert_other attrs k v Hfree Hplain) as Hplain'.
  exists attrs,
    (dump_additional_data
       (Marshmallow.fields_dump (declared_fields st s) attrs).1 (Model c) attrs),
    (dump_additional_data
       (Marshmallow.fields_dump (declared_fields st s) attrs).1 (Model c)
       (<[k:=v]> attrs)).
  split; [done|]. split; [|split; [|split; [|split; [|split]]]].
  - rewrite (to_dict_plain _ _ _ _ Hplain Hs), (_to_dict_plain _ _ _ _ Hplain Hs).
    cbv zeta. by rewrite decide_True.
  - rewrite (from_dict_unfold _ _ _ _ Hs). cbv zeta.
    pose proof (loaded_undeclared _ k v Hk d) as Hl.
    rewrite (fields_load_undeclared _ _ _ Hk) in Hl.
    rewrite (fields_load_undeclared _ _ _ Hk).
    rewrite decide_True by exact Hempty.
    rewrite (make_model_bound _ _ _ _ Hbound), Hl.
    by apply (new_undeclared st c s attrs (VObj (Model c) attrs)).
  - apply lookup_insert_eq.
  - rewrite (to_dict_plain _ _ _ _ Hplain' Hs), (_to_dict_plain _ _ _ _ Hplain' Hs).
    cbv zeta. rewrite (fields_dump_undeclared _ _ _ Hk).
    by rewrite decide_True by exact Hd.
  - rewrite dump_additional_data_lookup, dumped_valid, Hk, lookup_insert_eq.
    by rewrite (getattr_ordinary _ _ _ Hdesc), lookup_insert_eq.
  - intros k' Hne Hdict. rewrite !dump_additional_data_lookup.
    rewrite (getattr_insert_ne _ _ _ _ _ Hne Hdict).
    by rewrite lookup_insert_ne by done.
Qed.

(** C5 as stated fails: [{"name": "Foo"}] has every declared field of
    [PersonSchema] and loads; with the undeclared key [to_dict] added, the
    value stored on the instance hides the method the wrapper calls, and
    [from_dict] raises [TypeError]. *)
Lemma undeclared_key_can_break_load :
  TestModels.fields TestModels.PersonSchema !! "to_dict" = None
  /\ Validation.from_dict TestModels.st_person "Person" TestModels.foo
     = Ok (VObj (Model "Person") TestModels.foo)
  /\ <["to_dict" := VInt 1]> TestModels.foo = TestModels.foo_to_dict
  /\ Validation.from_dict TestModels.st_person "Person" TestModels.foo_to_dict
     = Raise TypeError.
Proof. vm_compute. by repeat split. Qed.

(** C4 as stated fails: [Person(to_dict=1)] omits the required field
    [name], and the call raises [TypeError], not [ValidationError]: the
    value stored on the instance hides the method [_validate] calls.  For
    the same reason [Person(name="Foo", to_dict=1)] supplies the field and
    does not succeed. *)
Lemma omitted_field_can_raise_type_error :
  TestModels.fields TestModels.PersonSchema !! "name" = Some (TestModels.String true)
  /\ TestModels.only_to_dict !! "name" = None
  /\ Validation.new TestModels.st_person (Model "Person") TestModels.only_to_dict
     = Raise TypeError
  /\ is_validation_error
       (Validation.new TestModels.st_person (Model "Person") TestModels.only_to_dict)
     = false
  /\ TestModels.foo_to_dict !! "name" = Some (VStr "Foo")
  /\ Validation.new TestModels.st_person (Model "Person") TestModels.foo_to_dict
     = Raise TypeError.
Proof. vm_compute. by repeat split. Qed.

(** ** The properties on the classes of the test file *)

Lemma person_bound : bound_to TestModels.st_person "Person" TestModels.PersonSchema.
Proof. repeat split. vm_compute. lia. Qed.

Lemma person_fields :
  TestModels.fields TestModels.PersonSchema = {[ "name" := TestModels.String true ]}.
Proof.
  simpl. unfold TestModels.own_fields.
  rewrite decide_True by done. rewrite decide_False by done.
  by rewrite !(right_id_L ∅ (∪)).
Qed.

Lemma person_field name f :
  TestModels.fields TestModels.PersonSchema !! name = Some f ->
  name = "name" /\ f = TestModels.String true.
Proof.
  rewrite person_fields. intros Hf. by apply lookup_singleton_Some in Hf as [<- <-].
Qed.

(** Whatever the string field loads, it dumps as it was. *)
Lemma person_dump_undoes_load (d : dict) :
  dump_undoes_load (TestModels.fields TestModels.PersonSchema) d.
Proof.
  intros name f Hf. apply person_field in Hf as [_ ->].
  destruct (d !! name) as [w|]; [|done].
  intros v. simpl. by destruct w; intros [= <-].
Qed.

(** It loads what it dumped when the attribute is a string. *)
Lemma person_load_undoes_dump (attrs : dict) s :
  attrs !! "name" = Some (VStr s) ->
  load_undoes_dump (TestModels.fields TestModels.PersonSchema) attrs.
Proof.
  intros Hname name f Hf. apply person_field in Hf as [-> ->].
  rewrite Hname. intros w. simpl. by intros [= <-].
Qed.

Lemma person_accepts_foo k g :
  TestModels.fields TestModels.PersonSchema !! k = Some g ->
  accepted g ((<["name" := VStr "Foo"]> (∅ : dict)) !! k).
Proof.
  intros Hg. apply person_field in Hg as [-> ->].
  rewrite lookup_insert_eq. by exists (VStr "Foo"), (VStr "Foo").
Qed.

Lemma extra_not_installed : "extra" ∉ installed.
Proof.
  rewrite list_elem_of_In. simpl. by intros [H|[H|[H|[]]]].
Qed.

Lemma extra_not_descriptor : "extra" ∉ descriptor_names.
Proof.
  rewrite list_elem_of_In. simpl. by intros [H|[H|[H|[]]]].
Qed.

Lemma person_reachable : reachable TestModels.fields TestModels.st_person.
Proof.
  exact (reachable_bind _ _ TestModels.PersonSchema "Person" _
           (reachable_initial _) eq_refl).
Qed.

Lemma round_trip_witness :
  (exists d, Validation.to_dict TestModels.st_person
               (VObj (Model "Person") TestModels.foo_bar) = Ok (Plain <$> d)
             /\ Validation.from_dict TestModels.st_person "Person" d
                = Ok (VObj (Model "Person") TestModels.foo_bar))
  /\ Validation.to_dict TestModels.st_person
       (VObj (Model "Person") TestModels.foo_bar) = Ok (Plain <$> TestModels.foo_bar).
Proof.
  pose proof (round_trip TestModels.st_person "Person" TestModels.PersonSchema
                person_bound) as [Hnew Hload].
  split.
  - apply (Hnew TestModels.foo_bar).
    + vm_compute. reflexivity.
    + apply (person_load_undoes_dump _ "Foo"). vm_compute. reflexivity.
    + vm_compute. reflexivity.
  - apply Hload.
    + vm_compute. reflexivity.
    + apply person_dump_undoes_load.
    + vm_compute. reflexivity.
Defined.

Lemma single_binding_witness :
  Validation.bind_schema TestModels.st_person TestModels.PersonSchema "Other"
  = Raise (ValueError TestModels.PersonSchema (Model "Person"))
  /\ forall name,
       dict_model_cls TestModels.st_person (Subclass name TestModels.PersonSchema) = None ->
       model_cls TestModels.st_person (Subclass name TestModels.PersonSchema)
       = Some (Model "Person")
       /\ exists st2,
            Validation.bind_schema TestModels.st_person
              (Subclass name TestModels.PersonSchema) "Other" = Ok st2
            /\ model_cls st2 (Subclass name TestModels.PersonSchema) = Some (Model "Other")
            /\ model_cls st2 TestModels.PersonSchema = Some (Model "Person").
Proof.
  exact (single_binding (initial TestModels.fields) TestModels.PersonSchema
           "Person" "Other" TestModels.st_person eq_refl).
Defined.


Lemma required_field_is_enforced_witness :
  is_validation_error (Validation.new TestModels.st_person (Model "Person") ∅) = true
  /\ Validation.new TestModels.st_person (Model "Person") (<["name" := VStr "Foo"]> ∅)
     = Ok (VObj (Model "Person") (<["name" := VStr "Foo"]> ∅)).
Proof.
  assert (Hwrapped : 0 < validating_inits TestModels.st_person "Person")
    by (vm_compute; lia).
  pose proof (required_field_is_enforced TestModels.st_person "Person"
                TestModels.PersonSchema "name" (TestModels.String true)
                eq_refl Hwrapped eq_refl eq_refl) as [Homit Hgiven].
  split.
  - apply Homit; reflexivity.
  - apply Hgiven; [vm_compute; reflexivity|vm_compute; reflexivity|].
    exact person_accepts_foo.
Defined.

Lemma undeclared_key_passes_through_witness :
  exists attrs dumped dumped',
    VObj (Model "Person") TestModels.foo = VObj (Model "Person") attrs
    /\ Validation.to_dict TestModels.st_person (VObj (Model "Person") TestModels.foo)
       = Ok dumped
    /\ Validation.from_dict TestModels.st_person "Person"
         (<["extra" := VInt 1]> TestModels.foo)
       = Ok (VObj (Model "Person") (<["extra" := VInt 1]> attrs))
    /\ <["extra" := VInt 1]> attrs !! "extra" = Some (VInt 1)
    /\ Validation.to_dict TestModels.st_person
         (VObj (Model "Person") (<["extra" := VInt 1]> attrs))
       = Ok dumped'
    /\ dumped' !! "extra" = Some (Plain (VInt 1))
    /\ forall k', k' <> "extra" -> k' <> "__dict__" -> dumped' !! k' = dumped !! k'.
Proof.
  apply (undeclared_key_passes_through TestModels.st_person "Person"
           TestModels.PersonSchema TestModels.foo
           (VObj (Model "Person") TestModels.foo) "extra" (VInt 1)).
  - exact person_bound.
  - reflexivity.
  - exact extra_not_installed.
  - discriminate.
  - exact extra_not_descriptor.
  - vm_compute. reflexivity.
Defined.

Lemma from_dict_raises_every_field_error_witness :
  Validation.from_dict TestModels.st_person "Person" ∅
  = Raise (ValidationError (FieldErrors
             (Marshmallow.validate (TestModels.fields TestModels.PersonSchema) ∅))).
Proof.
  exact (proj1 (from_dict_raises_every_field_error TestModels.st_person "Person"
                  TestModels.PersonSchema ∅ "name" eq_refl
                  (ex_intro _ (TestModels.String true)
                     (conj eq_refl (or_introl (conj eq_refl eq_refl)))))).
Defined.

Lemma rebinding_overwrites_model_cls_witness :
  let st2 := Models.bind_schema
               (Models.bind_schema (initial TestModels.fields) TestModels.PersonSchema "A")
               TestModels.PersonSchema "B" in
  model_cls st2 TestModels.PersonSchema = Some (Model "B")
  /\ Models.from_dict st2 "B" TestModels.foo_bar = Ok (VObj (Model "B") TestModels.foo_bar)
  /\ exists attrs, VObj (Model "B") TestModels.foo_bar = VObj (Model "B") attrs.
Proof.
  exact (rebinding_overwrites_model_cls (initial TestModels.fields)
           TestModels.PersonSchema "A" "B" TestModels.foo_bar
           (VObj (Model "B") TestModels.foo_bar) eq_refl).
Defined.

Lemma base_schema_cannot_be_bound_witness :
  Validation.bind_schema TestModels.st_person Validation.BaseSchema "Person"
  = Raise (ValueError Validation.BaseSchema SimpleNamespace).
Proof.
  exact (base_schema_cannot_be_bound TestModels.fields TestModels.st_person "Person"
           (reachable_bind _ _ TestModels.PersonSchema "Person" _
              (reachable_initial _) eq_refl)).
Defined.

(** * Further properties of the code *)

(** ** Selection *)

(** A hint that [choices] registers selects its schema.  When a
    [dump_hinter] is given, serialization asks it and not the load hinter,
    so the two directions may select different schemas for one value. *)
Theorem registered_hint_selects_schema {S : Type} (choices : gmap string S)
    (hinter dump_hinter : value -> string) (data : value) (loaded dumped : S) :
  choices !! hinter data = Some loaded ->
  choices !! dump_hinter data = Some dumped ->
  let poly := OneTypeOf.init choices (Some hinter) (Some dump_hinter) in
  OneTypeOf._deserialization_selector poly data = Ok loaded
  /\ OneTypeOf._serialization_selector poly data = Ok dumped.
Proof.
  intros Hload Hdump poly. split.
  - unfold poly, OneTypeOf._deserialization_selector. simpl.
    unfold OneTypeOf.select. by rewrite Hload.
  - unfold poly, OneTypeOf._serialization_selector. simpl.
    unfold OneTypeOf.select. by rewrite Hdump.
Qed.

Lemma registered_hint_selects_schema_witness :
  let choices : gmap string schema_cls :=
    {[ "Book" := BookSchema; "dict" := AlbumSchema ]} in
  let data := VDict {[ "author" := VStr "A" ]} in
  let poly := OneTypeOf.init choices (Some book_if_dict)
                             (Some dump_book_or_album) in
  OneTypeOf._deserialization_selector poly data = Ok BookSchema
  /\ OneTypeOf._serialization_selector poly data = Ok AlbumSchema.
Proof.
  exact (registered_hint_selects_schema
           ({[ "Book" := BookSchema; "dict" := AlbumSchema ]} : gmap string schema_cls)
           book_if_dict dump_book_or_album
           (VDict {[ "author" := VStr "A" ]}) BookSchema AlbumSchema
           eq_refl eq_refl).
Defined.

(** The hinters default to [None].  A field built without [hinter] raises
    [TypeError] on every deserialization, whatever [choices] holds, and a
    [dump_hinter] does not stand in for it; built without either, it raises
    [TypeError] in both directions. *)
Theorem missing_hinter_raises_type_error {S : Type} (choices : gmap string S)
    (dump_hinter : option (value -> string)) (data : value) :
  OneTypeOf._deserialization_selector (OneTypeOf.init choices None dump_hinter) data
  = Raise TypeError
  /\ OneTypeOf._serialization_selector (OneTypeOf.init choices None None) data
     = Raise TypeError
  /\ OneTypeOf._serialization_selector (OneTypeOf.init choices None dump_hinter) data
     = OneTypeOf.select dump_hinter choices data.
Proof. by destruct dump_hinter. Qed.

(** ** The hooks *)

Lemma getattr_is_Some c (attrs : dict) k :
  is_Some (attrs !! k) -> is_Some (getattr c attrs k).
Proof.
  intros [v Hv]. unfold getattr. rewrite Hv.
  repeat case_decide; try by eexists. destruct c; by eexists.
Qed.

(** Both hooks keep every key [dump] or [load] produced with the value it
    produced and add nothing but the other keys of the original object or
    input: [load_additional_data] with the value of the input,
    [dump_additional_data] with what [getattr] gives on the object, which is
    the entry of its [__dict__] unless the key is [__class__], [__dict__]
    or [__weakref__]. *)
Theorem additional_data_is_a_merge (valid_data original_data : dict) c (k : string) :
  dump_additional_data valid_data c original_data !! k
  = (match valid_data !! k with
     | Some v => Some (Plain v)
     | None => if original_data !! k is Some _ then getattr c original_data k else None
     end)
  /\ load_additional_data valid_data original_data !! k
     = (if valid_data !! k is Some v then Some v else original_data !! k)
  /\ (k ∉ descriptor_names ->
      dump_additional_data valid_data c original_data !! k
      = Plain <$> load_additional_data valid_data original_data !! k)
  /\ dom (dump_additional_data valid_data c original_data)
     = dom valid_data ∪ dom original_data
  /\ dom (load_additional_data valid_data original_data)
     = dom valid_data ∪ dom original_data.
Proof.
  split; [apply dump_additional_data_lookup|].
  split; [apply load_additional_data_lookup|]. split; [|split].
  - intros Hk. rewrite dump_additional_data_lookup, load_additional_data_lookup.
    rewrite (getattr_ordinary _ _ _ Hk).
    destruct (valid_data !! k); [done|]. by destruct (original_data !! k).
  - apply set_eq. intros x. rewrite elem_of_union, !elem_of_dom.
    rewrite dump_additional_data_lookup.
    destruct (valid_data !! x) as [v|] eqn:Hv.
    + split; [intros _; left; eauto|intros _; eauto].
    + destruct (original_data !! x) as [w|] eqn:Hw.
      * split; [intros _; right; eauto|].
        intros _. apply getattr_is_Some. rewrite Hw. eauto.
      * split; [by intros [? ?]|]. by intros [[? ?]|[? ?]].
  - unfold load_additional_data. by rewrite additional_data_union, dom_union_L.
Qed.

(** When [load] changed no value, [load_additional_data] gives back the
    input itself; when [dump] changed none and no attribute of the object is
    named [__class__], [__dict__] or [__weakref__], [dump_additional_data]
    gives back the attributes of the object. *)
Theorem additional_data_restores_original (valid_data original_data : dict) c :
  valid_data ⊆ original_data ->
  load_additional_data valid_data original_data = original_data
  /\ (ordinary original_data = true ->
      dump_additional_data valid_data c original_data = Plain <$> original_data).
Proof.
  intros Hsub.
  assert (Hunion : valid_data ∪ original_data = original_data)
    by by apply map_subseteq_union.
  split.
  - unfold load_additional_data. by rewrite additional_data_union, Hunion.
  - intros Hord. by rewrite (dump_additional_data_ordinary _ _ _ Hord), Hunion.
Qed.

Lemma additional_data_restores_original_witness :
  load_additional_data TestModels.foo TestModels.foo_bar = TestModels.foo_bar
  /\ (ordinary TestModels.foo_bar = true ->
      dump_additional_data TestModels.foo (Model "Person") TestModels.foo_bar
      = Plain <$> TestModels.foo_bar).
Proof.
  apply (additional_data_restores_original TestModels.foo TestModels.foo_bar).
  apply map_subseteq_spec. intros k v Hk. unfold TestModels.foo in Hk.
  apply lookup_singleton_Some in Hk as [<- <-]. vm_compute. reflexivity.
Defined.

(** ** Stores reached by binding *)

Lemma reachable_fields fields st : reachable fields st -> declared_fields st = fields.
Proof.
  induction 1 as [|st s c st' _ IH Hbind]; [done|].
  destruct (bind_schema_inv _ _ _ _ Hbind) as (_ & _ & _ & _ & ->). done.
Qed.

Lemma reachable_inv fields st :
  reachable fields st ->
  forall c s, cls_schema st c = Some s ->
    dict_model_cls st s = Some (Model c) /\ 0 < validating_inits st c.
Proof.
  induction 1 as [|st s0 c0 st' _ IH Hbind]; [done|].
  destruct (bind_schema_inv _ _ _ _ Hbind) as (Hnone & -> & -> & -> & _).
  intros c s. unfold upd at 1. destruct (decide (c = c0)) as [->|Hc].
  - intros [= <-]. rewrite !upd_eq. split; [done|lia].
  - intros Hs. destruct (IH c s Hs) as [Hown Hwrapped].
    rewrite !upd_ne; [done|done|]. intros ->. congruence.
Qed.

Lemma bound_to_reachable_aux fields st c s :
  reachable fields st -> cls_schema st c = Some s ->
  bound_to st c s /\ declared_fields st s = fields s.
Proof.
  intros Hreach Hs. destruct (reachable_inv _ _ Hreach c s Hs) as [Hown Hwrapped].
  split; [|by rewrite (reachable_fields _ _ Hreach)].
  split; [done|]. split; [by apply model_cls_own|done].
Qed.

(** With the binder of [validation/base.py], a model class that has a
    [schema] is the class its schema class builds, in every store binding
    can reach: the schema class holds it in its own [__dict__], its
    [__init__] validates, and the declared fields are the ones the classes
    were defined with. *)
Theorem bound_class_is_what_its_schema_builds fields st c s :
  reachable fields st ->
  cls_schema st c = Some s ->
  bound_to st c s
  /\ dict_model_cls st s = Some (Model c)
  /\ declared_fields st s = fields s.
Proof.
  intros Hreach Hs. destruct (reachable_inv _ _ Hreach c s Hs) as [Hown Hwrapped].
  split; [|split].
  - split; [done|]. split; [by apply model_cls_own|done].
  - done.
  - by rewrite (reachable_fields _ _ Hreach).
Qed.

Lemma bound_class_is_what_its_schema_builds_witness :
  bound_to TestModels.st_person "Person" TestModels.PersonSchema
  /\ dict_model_cls TestModels.st_person TestModels.PersonSchema = Some (Model "Person")
  /\ declared_fields TestModels.st_person TestModels.PersonSchema
     = TestModels.fields TestModels.PersonSchema.
Proof.
  exact (bound_class_is_what_its_schema_builds TestModels.fields TestModels.st_person
           "Person" TestModels.PersonSchema person_reachable eq_refl).
Defined.

(** In every store binding can reach, [model_cls] resolves for every schema
    class, at the latest to the default of the root, so [make_model] never
    fails for want of a class to build: it is the constructor call of the
    class resolved. *)
Theorem model_cls_always_resolves fields st s after_init data :
  reachable fields st ->
  exists c, model_cls st s = Some c
            /\ make_model after_init st s data = construct after_init st c data.
Proof.
  intros Hreach. assert (Hsome : exists c, model_cls st s = Some c).
  { induction s as [|name parent IH]; simpl.
    - rewrite (reachable_root _ _ Hreach). eauto.
    - destruct (dict_model_cls st (Subclass name parent)); eauto. }
  destruct Hsome as [c Hc]. exists c. split; [done|].
  unfold make_model. by rewrite Hc.
Qed.

Lemma model_cls_always_resolves_witness :
  exists c, model_cls TestModels.st_person (Subclass "Copy" TestModels.PersonSchema) = Some c
            /\ make_model Validation.call__validate TestModels.st_person
                 (Subclass "Copy" TestModels.PersonSchema) TestModels.foo
               = construct Validation.call__validate TestModels.st_person c TestModels.foo.
Proof.
  exact (model_cls_always_resolves TestModels.fields TestModels.st_person
           (Subclass "Copy" TestModels.PersonSchema) Validation.call__validate
           TestModels.foo person_reachable).
Defined.

Lemma initial_model_cls fields s : model_cls (initial fields) s = Some SimpleNamespace.
Proof. induction s as [|name parent IH]; [done|]. simpl. exact IH. Qed.

(** Before any binding every schema class inherits [model_cls =
    SimpleNamespace] from the root, and its [load] raises for no input: fields
    in error come back as errors with the valid part, and otherwise the
    object is a plain namespace holding the loaded fields and every other
    key of the input, which no wrapper validates. *)
Theorem unbound_schema_loads_a_namespace fields s after_init (d : dict) :
  model_cls (initial fields) s = Some SimpleNamespace
  /\ schema_load after_init (initial fields) s d
     = (let loaded := Marshmallow.fields_load (fields s) d in
        if decide (loaded.2 = ∅)
        then Ok (VObj SimpleNamespace (load_additional_data loaded.1 d), ∅)
        else Ok (VDict loaded.1, loaded.2)).
Proof.
  split; [apply initial_model_cls|].
  unfold schema_load, make_model. rewrite initial_model_cls.
  cbn [declared_fields initial].
  destruct (Marshmallow.fields_load (fields s) d) as [valid_data errs].
  cbv zeta. cbn [fst snd]. destruct (decide (errs = ∅)); [|done].
  unfold construct, original_init. by rewrite right_id_dict.
Qed.

(** ** What [from_dict] and [to_dict] give *)

Lemma from_dict_bound st c d m :
  Validation.from_dict st c d = Ok m -> exists s, cls_schema st c = Some s.
Proof.
  unfold Validation.from_dict, _from_dict.
  destruct (cls_schema st c) as [s|]; [eauto|done].
Qed.

Lemma new_ok_validated st c kwargs m :
  0 < validating_inits st c ->
  Validation.new st (Model c) kwargs = Ok m ->
  Validation.call__validate st m = Ok tt.
Proof.
  intros Hwrapped. unfold Validation.new. rewrite construct_bound by done.
  destruct (kwargs !! "self"); [done|].
  destruct (Validation.call__validate st (VObj (Model c) kwargs)) as [[]|e] eqn:Hv;
    [|done].
  by intros [= <-].
Qed.

(** With the binder of [validation/base.py], whatever [from_dict] of a model
    class returns is an instance of that very class on which [_validate]
    succeeds; every key of the input is an attribute of it, and the keys the
    schema does not declare have the value the input gave them. *)
Theorem from_dict_returns_a_validated_instance fields st c d m :
  reachable fields st ->
  Validation.from_dict st c d = Ok m ->
  exists s attrs,
    cls_schema st c = Some s
    /\ m = VObj (Model c) attrs
    /\ Validation.call__validate st m = Ok tt
    /\ dom d ⊆ dom attrs
    /\ forall k, fields s !! k = None -> attrs !! k = d !! k.
Proof.
  intros Hreach Hload. destruct (from_dict_bound _ _ _ _ Hload) as [s Hs].
  destruct (bound_to_reachable_aux fields st c s Hreach Hs) as (Hbound & Hfields).
  pose proof Hbound as (_ & _ & Hwrapped).
  rewrite (from_dict_unfold _ _ _ _ Hs) in Hload. cbv zeta in Hload.
  destruct (decide ((Marshmallow.fields_load (declared_fields st s) d).2 = ∅));
    [|done].
  rewrite (make_model_bound _ _ _ _ Hbound) in Hload.
  pose proof (new_ok_validated _ _ _ _ Hwrapped Hload) as Hvalid.
  apply construct_instance in Hload as ->.
  eexists s, _. split; [done|]. split; [done|]. split; [done|]. split.
  - unfold load_additional_data. rewrite additional_data_union, dom_union_L.
    set_solver.
  - intros k Hk. rewrite loaded_lookup, Hfields, Hk. done.
Qed.

Lemma from_dict_returns_a_validated_instance_witness :
  exists s attrs,
    cls_schema TestModels.st_person "Person" = Some s
    /\ VObj (Model "Person") TestModels.foo_bar = VObj (Model "Person") attrs
    /\ Validation.call__validate TestModels.st_person
         (VObj (Model "Person") TestModels.foo_bar) = Ok tt
    /\ dom TestModels.foo_bar ⊆ dom attrs
    /\ forall k, TestModels.fields s !! k = None -> attrs !! k = TestModels.foo_bar !! k.
Proof.
  apply (from_dict_returns_a_validated_instance TestModels.fields TestModels.st_person
           "Person" TestModels.foo_bar (VObj (Model "Person") TestModels.foo_bar)).
  - exact person_reachable.
  - vm_compute. reflexivity.
Defined.

(** Whatever [to_dict] returns for an instance of a bound class has every
    attribute of the instance as a key: the ones the schema declares with
    what their field serialized them to, all others with what [getattr]
    gives for them, the very value of the attribute unless the key is
    [__class__], [__dict__] or [__weakref__]. *)
Theorem to_dict_keeps_every_attribute st c s attrs d :
  cls_schema st c = Some s ->
  Validation.to_dict st (VObj (Model c) attrs) = Ok d ->
  dom attrs ⊆ dom d
  /\ (forall k, declared_fields st s !! k = None -> is_Some (attrs !! k) ->
        d !! k = getattr (Model c) attrs k)
  /\ (forall k, declared_fields st s !! k = None -> k ∉ descriptor_names ->
        d !! k = Plain <$> attrs !! k)
  /\ (forall k f v, declared_fields st s !! k = Some f -> attrs !! k = Some v ->
        exists w, Marshmallow._serialize f v = Marshmallow.Valid w
                  /\ d !! k = Some (Plain w)).
Proof.
  intros Hs. unfold Validation.to_dict, call_to_dict.
  destruct (attrs !! "to_dict"); [done|]. cbn [class_schema]. rewrite Hs.
  destruct (attrs !! "schema") as [v|] eqn:Hschema.
  { unfold _to_dict. rewrite Hschema.
    destruct (call_on_data_raises (B:=out_dict) v "dump" (Ok tt)) as [e ->]. done. }
  rewrite (_to_dict_schema st (Model c) s attrs Hschema Hs). cbv zeta.
  remember (Marshmallow.fields_dump (declared_fields st s) attrs) as dumped eqn:Hdumped.
  destruct (decide (dumped.2 = ∅)) as [Herrs|]; [|done].
  intros [= <-]. subst dumped. split; [|split; [|split]].
  - intros k. rewrite !elem_of_dom. intros Hk.
    rewrite dump_additional_data_lookup.
    destruct ((Marshmallow.fields_dump (declared_fields st s) attrs).1 !! k) as [w|];
      [eauto|].
    destruct Hk as [v Hv]. rewrite Hv. apply getattr_is_Some. rewrite Hv. eauto.
  - intros k Hk [v Hv]. by rewrite dump_additional_data_lookup, dumped_valid, Hk, Hv.
  - intros k Hk Hdesc.
    rewrite dump_additional_data_lookup, dumped_valid, Hk.
    rewrite (getattr_ordinary _ _ _ Hdesc). by destruct (attrs !! k).
  - intros k f v Hf Hv.
    destruct (proj1 (dump_errors_empty _ _) Herrs k f v Hf Hv) as [w Hw].
    exists w. split; [done|].
    by rewrite dump_additional_data_lookup, dumped_valid, Hf, Hv, Hw.
Qed.

Lemma to_dict_keeps_every_attribute_witness :
  dom TestModels.five ⊆ dom (Plain <$> TestModels.five_dumped)
  /\ (forall k,
        declared_fields TestModels.st_person TestModels.PersonSchema !! k = None ->
        is_Some (TestModels.five !! k) ->
        (Plain <$> TestModels.five_dumped) !! k = getattr (Model "Person") TestModels.five k)
  /\ (forall k,
        declared_fields TestModels.st_person TestModels.PersonSchema !! k = None ->
        k ∉ descriptor_names ->
        (Plain <$> TestModels.five_dumped) !! k = Plain <$> TestModels.five !! k)
  /\ (forall k f v,
        declared_fields TestModels.st_person TestModels.PersonSchema !! k = Some f ->
        TestModels.five !! k = Some v ->
        exists w, Marshmallow._serialize f v = Marshmallow.Valid w
                  /\ (Plain <$> TestModels.five_dumped) !! k = Some (Plain w)).
Proof.
  apply (to_dict_keeps_every_attribute TestModels.st_person "Person"
           TestModels.PersonSchema TestModels.five (Plain <$> TestModels.five_dumped)).
  - reflexivity.
  - vm_compute. reflexivity.
Defined.

(** ** What the constructors come to *)

(** [self.schema.validate(self.to_dict())] on an instance of a bound class
    whose [__dict__] hides neither [schema] nor [to_dict]: the errors of the
    dump are raised first, then those of the validation of what was
    dumped. *)
Lemma validate_instance_unhidden st c s kwargs :
  cls_schema st c = Some s ->
  kwargs !! "schema" = None -> kwargs !! "to_dict" = None ->
  validate_instance st (VObj (Model c) kwargs)
  = (let dumped := Marshmallow.fields_dump (declared_fields st s) kwargs in
     if decide (dumped.2 = ∅) then
       let errs := Marshmallow.validate (declared_fields st s)
                     (plain_entries (dump_additional_data dumped.1 (Model c) kwargs)) in
       if decide (errs = ∅) then Ok tt
       else Raise (ValidationError (FieldErrors errs))
     else Raise (ValidationError (FieldErrors dumped.2))).
Proof.
  intros Hs Hschema Hdict. unfold validate_instance, call_to_dict.
  rewrite Hschema, Hdict. cbn [class_schema]. rewrite Hs.
  rewrite (_to_dict_schema st (Model c) s kwargs Hschema Hs). cbv zeta.
  by destruct (decide ((Marshmallow.fields_dump (declared_fields st s) kwargs).2 = ∅)).
Qed.

(** The constructors of the two binders.  Both raise [TypeError] on a
    keyword argument [self].  Without one, and when the keyword arguments
    hide neither [schema] nor [to_dict], the constructor of [models/base.py]
    raises the errors of the dump if there are any, else the errors of the
    validation of the dumped dictionary if there are any, else returns the
    instance.  The constructor of [validation/base.py] does the same when
    [_validate] is not hidden either, and raises [TypeError] when a value
    is given for it, a keyword argument [models/base.py] takes as one more
    attribute. *)
Theorem constructors_of_the_two_binders st c s kwargs :
  cls_schema st c = Some s -> 0 < validating_inits st c ->
  kwargs !! "schema" = None -> kwargs !! "to_dict" = None ->
  let self := VObj (Model c) kwargs in
  let dumped := Marshmallow.fields_dump (declared_fields st s) kwargs in
  let errs := Marshmallow.validate (declared_fields st s)
                (plain_entries (dump_additional_data dumped.1 (Model c) kwargs)) in
  let outcome :=
    if decide (dumped.2 = ∅) then
      if decide (errs = ∅) then Ok self
      else Raise (ValidationError (FieldErrors errs))
    else Raise (ValidationError (FieldErrors dumped.2)) in
  (no_self kwargs = true -> Models.new st (Model c) kwargs = outcome)
  /\ (no_self kwargs = true -> kwargs !! "_validate" = None ->
      Validation.new st (Model c) kwargs = outcome)
  /\ (is_Some (kwargs !! "_validate") ->
      Validation.new st (Model c) kwargs = Raise TypeError)
  /\ (no_self kwargs = false ->
      Models.new st (Model c) kwargs = Raise TypeError
      /\ Validation.new st (Model c) kwargs = Raise TypeError).
Proof.
  intros Hs Hwrapped Hschema Hdict self dumped errs outcome.
  pose proof (validate_instance_unhidden st c s kwargs Hs Hschema Hdict) as Hv.
  cbv zeta in Hv. fold dumped errs in Hv.
  assert (Hout : (_ <- validate_instance st self ;; Ok self) = outcome).
  { subst self outcome. rewrite Hv.
    destruct (decide (dumped.2 = ∅)); [|done]. by destruct (decide (errs = ∅)). }
  unfold Models.new, Validation.new. rewrite !construct_bound by done.
  unfold no_self. split; [|split; [|split]].
  - by destruct (kwargs !! "self").
  - destruct (kwargs !! "self"); [done|]. intros _ Hval.
    unfold Validation.call__validate, Validation._validate.
    rewrite Hval. cbn [class_schema]. by rewrite Hs.
  - intros [v Hval]. destruct (kwargs !! "self"); [done|].
    unfold Validation.call__validate. by rewrite Hval.
  - by destruct (kwargs !! "self").
Qed.

Lemma constructors_of_the_two_binders_witness :
  Models.new TestModels.st_person (Model "Person") TestModels.foo_validate
  = Ok (VObj (Model "Person") TestModels.foo_validate)
  /\ Validation.new TestModels.st_person (Model "Person") TestModels.foo_validate
     = Raise TypeError.
Proof.
  assert (Hwrapped : 0 < validating_inits TestModels.st_person "Person")
    by (vm_compute; lia).
  pose proof (constructors_of_the_two_binders TestModels.st_person "Person"
                TestModels.PersonSchema TestModels.foo_validate
                eq_refl Hwrapped eq_refl eq_refl) as (Hmodels & _ & Hvalidation & _).
  split.
  - rewrite Hmodels by reflexivity. vm_compute. reflexivity.
  - apply Hvalidation. vm_compute. eauto.
Defined.

(** An instance of a bound class whose [__dict__] hides [schema] with a
    value cannot be validated or dumped: the constructor of either binder
    and [to_dict] raise [TypeError] or [AttributeError], never a
    [ValidationError]. *)
Theorem hidden_schema_breaks_the_instance st c s kwargs v :
  cls_schema st c = Some s -> 0 < validating_inits st c ->
  kwargs !! "schema" = Some v ->
  let fails {A} (r : result A) := r = Raise TypeError \/ r = Raise AttributeError in
  fails (Validation.to_dict st (VObj (Model c) kwargs))
  /\ fails (Validation.new st (Model c) kwargs)
  /\ fails (Models.new st (Model c) kwargs).
Proof.
  intros Hs Hwrapped Hschema fails. subst fails. cbv beta.
  assert (Hdict : call_to_dict st (VObj (Model c) kwargs) = Raise TypeError
                  \/ call_to_dict st (VObj (Model c) kwargs) = Raise AttributeError).
  { unfold call_to_dict, _to_dict. rewrite Hschema. cbn [class_schema]. rewrite Hs.
    destruct (kwargs !! "to_dict"); [by left|]. unfold call_on_data.
    destruct v as [| | | |c' d']; auto. destruct (d' !! "dump"); auto. }
  assert (Hval : validate_instance st (VObj (Model c) kwargs) = Raise TypeError
                 \/ validate_instance st (VObj (Model c) kwargs) = Raise AttributeError).
  { unfold validate_instance. rewrite Hschema. unfold call_on_data.
    destruct v as [| | | |c' d']; auto. destruct (d' !! "validate"); auto.
    destruct Hdict as [Hd | Hd]; rewrite Hd; auto. }
  split; [exact Hdict|]. split.
  - unfold Validation.new. rewrite construct_bound by done.
    destruct (kwargs !! "self"); [by left|].
    unfold Validation.call__validate, Validation._validate.
    destruct (kwargs !! "_validate"); [by left|]. cbn [class_schema]. rewrite Hs.
    destruct Hval as [Hv | Hv]; rewrite Hv; auto.
  - unfold Models.new. rewrite construct_bound by done.
    destruct (kwargs !! "self"); [by left|].
    destruct Hval as [Hv | Hv]; rewrite Hv; auto.
Qed.

Lemma hidden_schema_breaks_the_instance_witness :
  let st := TestModels.st_person in
  let kwargs := TestModels.foo_schema in
  (Validation.to_dict st (VObj (Model "Person") kwargs) = Raise TypeError
   \/ Validation.to_dict st (VObj (Model "Person") kwargs) = Raise AttributeError)
  /\ (Validation.new st (Model "Person") kwargs = Raise TypeError
      \/ Validation.new st (Model "Person") kwargs = Raise AttributeError)
  /\ (Models.new st (Model "Person") kwargs = Raise TypeError
      \/ Models.new st (Model "Person") kwargs = Raise AttributeError).
Proof.
  assert (Hwrapped : 0 < validating_inits TestModels.st_person "Person")
    by (vm_compute; lia).
  exact (hidden_schema_breaks_the_instance TestModels.st_person "Person"
           TestModels.PersonSchema TestModels.foo_schema (VInt 1)
           eq_refl Hwrapped eq_refl).
Defined.

(** A keyword argument [self] never reaches the body of a wrapped
    constructor: the constructor of a bound class raises [TypeError], with
    either binder, and so does [from_dict] for a valid dictionary with a key
    [self], through [make_model]; the constructor of [SimpleNamespace], which
    no binder wrapped, takes it as an attribute. *)
Theorem keyword_self_is_rejected st c s (d : dict) v :
  bound_to st c s ->
  d !! "self" = Some v ->
  Validation.new st (Model c) d = Raise TypeError
  /\ Models.new st (Model c) d = Raise TypeError
  /\ (Marshmallow.validate (declared_fields st s) d = ∅ ->
      Validation.from_dict st c d = Raise TypeError)
  /\ construct Validation.call__validate st SimpleNamespace d
     = Ok (VObj SimpleNamespace d).
Proof.
  intros Hbound Hself. pose proof Hbound as (Hs & Hm & Hwrapped).
  split; [|split; [|split]].
  - unfold Validation.new. rewrite construct_bound by done. by rewrite Hself.
  - unfold Models.new. rewrite construct_bound by done. by rewrite Hself.
  - intros Hvalid. rewrite (from_dict_unfold _ _ _ _ Hs). cbv zeta.
    rewrite decide_True by exact Hvalid.
    rewrite (make_model_bound _ _ _ _ Hbound).
    unfold Validation.new. rewrite construct_bound by done.
    rewrite loaded_lookup, Hself.
    destruct (declared_fields st s !! "self") as [f|]; [|done].
    by destruct (Marshmallow._deserialize f v).
  - unfold construct, original_init. by rewrite right_id_dict.
Qed.

Lemma keyword_self_is_rejected_witness :
  Validation.new TestModels.st_person (Model "Person") TestModels.foo_self
  = Raise TypeError
  /\ Validation.from_dict TestModels.st_person "Person" TestModels.foo_self
     = Raise TypeError.
Proof.
  pose proof (keyword_self_is_rejected TestModels.st_person "Person"
                TestModels.PersonSchema TestModels.foo_self (VInt 1)
                person_bound) as Hself.
  destruct Hself as (Hnew & _ & Hload & _); [vm_compute; reflexivity|].
  split; [exact Hnew|]. apply Hload. vm_compute. reflexivity.
Defined.

(** ** Binding again *)

(** A model class that is bound already can be bound to a second schema
    class, if that one is unbound: the class then carries the second schema,
    its [__init__] is wrapped once more, and the first schema class goes on
    building it.  The constructor still comes to the original body followed
    by [self._validate()], whose second run repeats the first. *)
Theorem rebinding_a_model_class st s1 s2 c st1 :
  Validation.bind_schema st s1 c = Ok st1 ->
  dict_model_cls st1 s2 = None ->
  exists st2,
    Validation.bind_schema st1 s2 c = Ok st2
    /\ cls_schema st2 c = Some s2
    /\ model_cls st2 s2 = Some (Model c)
    /\ model_cls st2 s1 = Some (Model c)
    /\ validating_inits st2 c = S (S (validating_inits st c))
    /\ declared_fields st2 = declared_fields st
    /\ forall kwargs,
         Validation.new st2 (Model c) kwargs
         = (if no_self kwargs then
              self' <- original_init (VObj (Model c) ∅) kwargs ;;
              _ <- Validation.call__validate st2 self' ;;
              Ok self'
            else Raise TypeError).
Proof.
  intros Hbind Hfree.
  destruct (bind_schema_inv _ _ _ _ Hbind) as (_ & Hd & _ & Hn & Hf).
  assert (Hown : dict_model_cls st1 s1 = Some (Model c)) by (by rewrite Hd, upd_eq).
  assert (Hne : s1 <> s2) by (intros ->; congruence).
  unfold Validation.bind_schema at 1. rewrite Hfree. eexists. split; [done|].
  split; [|split; [|split; [|split; [|split]]]].
  - simpl. by rewrite upd_eq.
  - apply model_cls_own. simpl. by rewrite upd_eq.
  - apply model_cls_own. simpl. by rewrite upd_ne.
  - simpl. by rewrite upd_eq, Hn, upd_eq.
  - done.
  - intros kwargs. rewrite new_bound by (simpl; rewrite upd_eq; lia).
    unfold original_init. cbn [bind_result]. by rewrite right_id_dict.
Qed.

Lemma rebinding_a_model_class_witness :
  exists st2,
    Validation.bind_schema TestModels.st_person
      (Subclass "Copy" TestModels.PersonSchema) "Person" = Ok st2
    /\ cls_schema st2 "Person" = Some (Subclass "Copy" TestModels.PersonSchema)
    /\ model_cls st2 (Subclass "Copy" TestModels.PersonSchema) = Some (Model "Person")
    /\ model_cls st2 TestModels.PersonSchema = Some (Model "Person")
    /\ validating_inits st2 "Person"
       = S (S (validating_inits (initial TestModels.fields) "Person"))
    /\ declared_fields st2 = declared_fields (initial TestModels.fields)
    /\ forall kwargs,
         Validation.new st2 (Model "Person") kwargs
         = (if no_self kwargs then
              self' <- original_init (VObj (Model "Person") ∅) kwargs ;;
              _ <- Validation.call__validate st2 self' ;;
              Ok self'
            else Raise TypeError).
Proof.
  apply (rebinding_a_model_class (initial TestModels.fields) TestModels.PersonSchema
           (Subclass "Copy" TestModels.PersonSchema) "Person" TestModels.st_person).
  - reflexivity.
  - reflexivity.
Defined.
